(** * rest_framework_nested.relations

    A shallow embedding of the two serializer fields of
    [rest_framework_nested/relations.py],

    - [NestedHyperlinkedRelatedField] (the URL of an object that lives under
      its parent's URL), and
    - [HyperlinkedRouterField] (the URL of a nested collection),

    together with the properties of their URL and object resolution.

    Python objects live in a heap of attribute dictionaries, exceptions are
    the [Raise] outcomes of a small state-and-error monad, and every call
    that leaves the module (the reverse resolver, the queryset lookup, the
    related accessor, the inherited [get_queryset]) is recorded in a trace,
    so that "is called with" and "is never called" are statements about the
    trace. *)

From stdpp Require Import gmap strings list fin_maps.
From Stdlib Require Import ZArith.

Open Scope Z_scope.
Open Scope string_scope.
Open Scope list_scope.

(** ** Values, objects and the heap *)

Definition loc := nat.

(** A queryset handle stands for the rows it would fetch. *)
Inductive value : Type :=
  | VNone
  | VBool (b : bool)
  | VInt (z : Z)
  | VStr (s : string)
  | VRef (l : loc)
  | VQuerySet (rows : list loc).

#[global] Instance value_eq_dec : EqDecision value.
Proof. solve_decision. Defined.

(** An object is its attribute dictionary, the answer of
    [isinstance(o, rest_framework.relations.PKOnlyObject)] and the answer
    of [bool(o)] ([True] unless its class says otherwise). *)
Record object : Type := Object {
  obj_attrs : gmap string value;
  obj_pk_only : bool;
  obj_truth : bool;
}.

Definition heap := gmap loc object.

Inductive exn : Type :=
  | AttributeError
  | KeyError
  | TypeError
  | AssertionError
  | NoReverseMatch
  | ObjectDoesNotExist
  | MultipleObjectsReturned.

#[global] Instance exn_eq_dec : EqDecision exn.
Proof. solve_decision. Defined.

Inductive result (A : Type) : Type :=
  | Ok (a : A)
  | Raise (e : exn).
Arguments Ok {A} a.
Arguments Raise {A} e.

#[global] Instance result_eq_dec {A} `{EqDecision A} : EqDecision (result A).
Proof. solve_decision. Defined.

Section Builtins.
Variable h : heap.

(** [getattr(v, name)]: only heap objects carry the attributes the fields
    are configured with. *)
Definition getattr (v : value) (name : string) : result value :=
  match v with
  | VRef l =>
      match h !! l with
      | Some o =>
          match obj_attrs o !! name with
          | Some x => Ok x
          | None => Raise AttributeError
          end
      | None => Raise AttributeError
      end
  | _ => Raise AttributeError
  end.

(** [hasattr(v, name)]: [getattr] does not raise. *)
Definition hasattr (v : value) (name : string) : bool :=
  match getattr v name with
  | Ok _ => true
  | Raise _ => false
  end.

(** [isinstance(v, PKOnlyObject)] *)
Definition is_pk_only (v : value) : bool :=
  match v with
  | VRef l =>
      match h !! l with
      | Some o => obj_pk_only o
      | None => false
      end
  | _ => false
  end.

(** [bool(v)], as [if v] and [not v] evaluate it.  A queryset is true
    when it has a row. *)
Definition truthy (v : value) : bool :=
  match v with
  | VNone => false
  | VBool b => b
  | VInt z => negb (Z.eqb z 0)
  | VStr s => negb (String.eqb s "")
  | VRef l =>
      match h !! l with
      | Some o => obj_truth o
      | None => true
      end
  | VQuerySet rows =>
      match rows with
      | [] => false
      | _ :: _ => true
      end
  end.
End Builtins.

(** [v is None] *)
Definition is_None (v : value) : bool :=
  match v with
  | VNone => true
  | _ => false
  end.

(** [d[k]] on a dictionary with string keys. *)
Definition getitem (d : gmap string value) (k : string) : result value :=
  match d !! k with
  | Some v => Ok v
  | None => Raise KeyError
  end.

(** [d.pop(k, default)]: the value and the dictionary without [k]. *)
Definition dict_pop (d : gmap string value) (k : string) (default : value)
  : value * gmap string value :=
  match d !! k with
  | Some v => (v, delete k d)
  | None => (default, d)
  end.

(** ** Calls that leave the module *)

Inductive event : Type :=
  | EvReverse (view_name : value) (kwargs : gmap string value)
              (request format : value)
  | EvGet (queryset : value) (lookup : gmap string value)
  | EvRelated (model : value) (source : string)
  | EvGetQueryset.

(** ** The monad of a method body: state and exceptions

    A raised exception keeps the state reached so far, as an assignment
    made before a [raise] stays made. *)

Definition M (S A : Type) : Type := S → result A * S.

#[global] Instance M_ret {S} : MRet (M S) := λ A a s, (Ok a, s).

#[global] Instance M_bind {S} : MBind (M S) := λ A B f m s,
  match m s with
  | (Ok a, s') => f a s'
  | (Raise e, s') => (Raise e, s')
  end.

Definition raise {S A} (e : exn) : M S A := λ s, (Raise e, s).

Definition lift {S A} (r : result A) : M S A := λ s, (r, s).

(** A method that only reads [self] threads the trace alone. *)
Definition emit (e : event) : M (list event) unit := λ tr, (Ok tt, tr ++ [e]).

(** ** The host ORM *)

Section ORM.
Variable h : heap.

(** How the ORM compares one field of a row with a lookup value (the
    [pk] alias, a foreign key given by identifier, string coercion). *)
Variable field_matches : heap → loc → string → value → bool.

Definition row_matches (lookup : gmap string value) (row : loc) : bool :=
  forallb (λ kv, field_matches h row kv.1 kv.2) (map_to_list lookup).

Definition matching_rows (rows : list loc) (lookup : gmap string value)
  : list loc :=
  List.filter (row_matches lookup) rows.

(** Modelled from the spec: the queryset lookup [get] of the host ORM
    (called with the lookup as keyword arguments), which is not part of
    this repository.  It expects exactly one match: zero rows are "object
    not found", more than one row is "multiple objects found".  A value
    that is no queryset has no [get]. *)
Definition queryset_get (qs : value) (lookup : gmap string value)
  : M (list event) value :=
  match qs with
  | VQuerySet rows =>
      _ ← emit (EvGet qs lookup);
      match matching_rows rows lookup with
      | [] => raise ObjectDoesNotExist
      | [row] => mret (VRef row)
      | _ :: _ :: _ => raise MultipleObjectsReturned
      end
  | _ => raise AttributeError
  end.
End ORM.

(** ** Calls into the host framework *)

(** [self.reverse(view_name, kwargs=kwargs, request=request, format=format)]:
    the framework's reverse resolver, which returns the URL or raises
    (no matching route).  The call is recorded with its arguments. *)
Definition call_reverse
    (reverse : value → gmap string value → value → value → result value)
    (view_name : value) (kwargs : gmap string value) (request format : value)
  : M (list event) value :=
  _ ← emit (EvReverse view_name kwargs request format);
  lift (reverse view_name kwargs request format).

(** A computation on the trace, run where [self] is part of the state. *)
Definition on_trace {T A} (m : M (list event) A) : M (T * list event) A :=
  λ s, let (r, tr) := m s.2 in (r, (s.1, tr)).

(** ** Instances under construction

    [__init__] runs on an instance that is not a field yet: its state is
    the instance dictionary, and an attribute that the instance lacks is
    read off the class. *)

Definition read_attr (cls : gmap string value) (name : string)
  : M (gmap string value) value :=
  λ self,
    match self !! name with
    | Some v => (Ok v, self)
    | None =>
        match cls !! name with
        | Some v => (Ok v, self)
        | None => (Raise AttributeError, self)
        end
    end.

Definition set_attr (name : string) (v : value) : M (gmap string value) unit :=
  λ self, (Ok tt, <[name := v]> self).

(** ** NestedHyperlinkedRelatedField *)

Module NestedHyperlinkedRelatedField.

(** The class attributes (lines 13-15). *)
Definition class_attrs : gmap string value :=
  <["lookup_field" := VStr "pk"]>
    (<["parent_lookup_field" := VStr "parent"]>
       (<["parent_lookup_related_field" := VStr "pk"]> ∅)).

Section Init.
(** The class the instance is made from: [class_attrs], or those of a
    subclass. *)
Variable cls : gmap string value.

(** The inherited initialiser, [HyperlinkedRelatedField.__init__]. *)
Variable base_init :
  list value → gmap string value → M (gmap string value) unit.

Definition __init__ (args : list value) (kwargs : gmap string value)
  : M (gmap string value) unit :=
  default ← read_attr cls "parent_lookup_field";
  let '(v, kwargs) := dict_pop kwargs "parent_lookup_field" default in
  _ ← set_attr "parent_lookup_field" v;
  default ← read_attr cls "parent_lookup_field";
  let '(v, kwargs) := dict_pop kwargs "parent_lookup_url_kwarg" default in
  _ ← set_attr "parent_lookup_url_kwarg" v;
  default ← read_attr cls "parent_lookup_related_field";
  let '(v, kwargs) := dict_pop kwargs "parent_lookup_related_field" default in
  _ ← set_attr "parent_lookup_related_field" v;
  base_init args kwargs.
End Init.

(** A constructed field, as its methods read it. *)
Record t : Type := Field {
  lookup_field : string;
  lookup_url_kwarg : string;
  parent_lookup_field : string;
  parent_lookup_url_kwarg : string;
  parent_lookup_related_field : string;
  queryset : value;
}.

Section Methods.
Variable h : heap.
Variable reverse :
  value → gmap string value → value → value → result value.
Variable field_matches : heap → loc → string → value → bool.

(** The inherited [get_queryset] of the framework's related field. *)
Variable inherited_get_queryset : t → result value.

Definition get_url (self : t) (obj view_name request format : value)
  : M (list event) value :=
  unsaved ←
    (if hasattr h obj "pk"
     then pk ← lift (getattr h obj "pk"); mret (is_None pk)
     else mret false);
  if (unsaved : bool) then mret VNone else
  lookup_value ← lift (getattr h obj (lookup_field self));
  parent_lookup_object ← lift (getattr h obj (parent_lookup_field self));
  parent_lookup_value ←
    (if truthy h parent_lookup_object
     then lift (getattr h parent_lookup_object
                  (parent_lookup_related_field self))
     else mret VNone);
  let kwargs : gmap string value :=
    <[parent_lookup_url_kwarg self := parent_lookup_value]>
      (<[lookup_url_kwarg self := lookup_value]> ∅) in
  call_reverse reverse view_name kwargs request format.

Definition get_object (self : t) (view_name : value)
    (view_args : list value) (view_kwargs : gmap string value)
  : M (list event) value :=
  lookup_value ← lift (getitem view_kwargs (lookup_url_kwarg self));
  parent_lookup_value ←
    lift (getitem view_kwargs (parent_lookup_url_kwarg self));
  let lookup_kwargs : gmap string value :=
    <[parent_lookup_field self := parent_lookup_value]>
      (<[lookup_field self := lookup_value]> ∅) in
  _ ← emit EvGetQueryset;
  queryset ← lift (inherited_get_queryset self);
  queryset_get h field_matches queryset lookup_kwargs.
End Methods.

End NestedHyperlinkedRelatedField.

(** ** HyperlinkedRouterField *)

Module HyperlinkedRouterField.

Section Init.
(** The inherited initialiser, [HyperlinkedRelatedField.__init__]. *)
Variable base_init :
  list value → gmap string value → M (gmap string value) unit.

Definition __init__ (view_name : value) (kwargs : gmap string value)
  : M (gmap string value) unit :=
  let kwargs := <["many" := VBool false]> kwargs in
  base_init [view_name] kwargs.
End Init.

(** A bound field, as its methods read it: [parent] is the serializer it
    is declared on, [root] the outermost serializer, [source] the name
    of the attribute it is fed from. *)
Record t : Type := Field {
  lookup_field : string;
  lookup_url_kwarg : string;
  queryset : value;
  parent : value;
  root : value;
  source : string;
}.

(** [self.queryset = v] *)
Definition with_queryset (self : t) (v : value) : t :=
  Field (lookup_field self) (lookup_url_kwarg self) v
        (parent self) (root self) (source self).

Definition set_queryset (v : value) : M (t * list event) unit :=
  λ s, (Ok tt, (with_queryset s.1 v, s.2)).

Definition get_self : M (t * list event) t := λ s, (Ok s.1, s).

Section Methods.
Variable h : heap.
Variable reverse :
  value → gmap string value → value → value → result value.

(** The [get_queryset] of the framework's related field, which reads
    the field and returns its queryset. *)
Variable super_get_queryset : t → result value.

Definition get_queryset : M (t * list event) value :=
  self ← get_self;
  _ ← (if negb (truthy h (queryset self))
       then
         meta ← lift (getattr h (parent self) "Meta");
         model ← lift (getattr h meta "model");
         _ ← on_trace (emit (EvRelated model (source self)));
         accessor ← lift (getattr h model (source self));
         related ← lift (getattr h accessor "related");
         set_queryset related
       else mret tt);
  self ← get_self;
  _ ← on_trace (emit EvGetQueryset);
  _ ← lift (super_get_queryset self);
  mret VNone.

Definition get_url (self : t) (obj view_name request format : value)
  : M (list event) value :=
  null_on_object ←
    (if hasattr h obj (lookup_field self)
     then v ← lift (getattr h obj (lookup_field self)); mret (is_None v)
     else mret false);
  if (null_on_object : bool) then mret VNone else
  null_on_instance ←
    (if hasattr h obj "instance"
     then
       instance ← lift (getattr h obj "instance");
       if hasattr h instance (lookup_field self)
       then v ← lift (getattr h instance (lookup_field self));
            mret (is_None v)
       else mret false
     else mret false);
  if (null_on_instance : bool) then mret VNone else
  located ←
    (if is_pk_only h obj
     then
       root_instance ← lift (getattr h (root self) "instance");
       lookup_value ← lift (getattr h root_instance (lookup_field self));
       mret (Some lookup_value)
     else if hasattr h obj (lookup_field self)
     then
       lookup_value ← lift (getattr h obj (lookup_field self));
       mret (Some lookup_value)
     else
       instance ← lift (getattr h obj "instance");
       if hasattr h instance (lookup_field self)
       then
         lookup_value ← lift (getattr h instance (lookup_field self));
         mret (Some lookup_value)
       else mret None);
  match located with
  | None => mret VNone
  | Some lookup_value =>
      let kwargs : gmap string value :=
        <[lookup_url_kwarg self := lookup_value]> ∅ in
      call_reverse reverse view_name kwargs request format
  end.
End Methods.

End HyperlinkedRouterField.

Module Nested := NestedHyperlinkedRelatedField.
Module Router := HyperlinkedRouterField.

(** ** Construction of a router field

    The call of the class [HyperlinkedRouterField] with a view name and
    keyword arguments, as Python makes it: the allocator [__new__] of the
    class receives the arguments first, and [__init__] then runs, with the
    same arguments, only when the allocator has returned an instance of
    the class; an object of another class is returned as it is.  The
    allocator is inherited from the framework. *)

Inductive allocated : Type :=
  | Fresh (self : gmap string value)
  | Diverted (v : value).

Definition construct
    (allocator : list value → gmap string value → result allocated)
    (base_init : list value → gmap string value → M (gmap string value) unit)
    (view_name : value) (kwargs : gmap string value) : result allocated :=
  match allocator [view_name] kwargs with
  | Ok (Fresh self) =>
      match Router.__init__ base_init view_name kwargs self with
      | (Ok _, self') => Ok (Fresh self')
      | (Raise e, _) => Raise e
      end
  | Ok (Diverted v) => Ok (Diverted v)
  | Raise e => Raise e
  end.

(** ** A small world to run the fields in

    One parent with two saved children, an orphan, an unsaved child and a
    duplicate row; a PK-only placeholder; the serializer that the router
    field is bound to, with its model and the accessor of [children]. *)

Module Sample.

Definition instance (attrs : gmap string value) : object :=
  Object attrs false true.

Definition placeholder (pk : value) : object :=
  Object (<["pk" := pk]> ∅) true true.

Definition the_parent : loc := 1%nat.
Definition child : loc := 2%nat.
Definition sibling : loc := 3%nat.
Definition orphan : loc := 4%nat.
Definition unsaved : loc := 5%nat.
Definition duplicate : loc := 6%nat.
Definition pk_only : loc := 7%nat.
Definition serializer : loc := 8%nat.
Definition meta : loc := 9%nat.
Definition model : loc := 10%nat.
Definition accessor : loc := 11%nat.
Definition relation : loc := 12%nat.
Definition wrapper : loc := 13%nat.
Definition bare : loc := 14%nat.
Definition empty_wrapper : loc := 15%nat.
Definition null_accessor : loc := 16%nat.

Definition world : heap :=
  list_to_map
    [ (the_parent, instance (<["pk" := VInt 2]> ∅));
      (child, instance (<["pk" := VInt 5]> (<["parent" := VRef the_parent]> ∅)));
      (sibling, instance (<["pk" := VInt 6]> (<["parent" := VRef the_parent]> ∅)));
      (orphan, instance (<["pk" := VInt 7]> (<["parent" := VNone]> ∅)));
      (unsaved, instance (<["pk" := VNone]> (<["parent" := VRef the_parent]> ∅)));
      (duplicate, instance (<["pk" := VInt 5]> (<["parent" := VRef the_parent]> ∅)));
      (pk_only, placeholder (VInt 5));
      (serializer,
        instance (<["instance" := VRef the_parent]> (<["Meta" := VRef meta]> ∅)));
      (meta, instance (<["model" := VRef model]> ∅));
      (model,
        instance (<["children" := VRef accessor]>
                    (<["drafts" := VRef null_accessor]> ∅)));
      (accessor, instance (<["related" := VRef relation]> ∅));
      (relation, instance ∅);
      (wrapper, instance (<["instance" := VRef child]> ∅));
      (bare, instance ∅);
      (empty_wrapper, instance (<["instance" := VRef bare]> ∅));
      (null_accessor, instance (<["related" := VNone]> ∅)) ].

(** An ORM that compares a column with the lookup value, and a foreign
    key with the identifier of the row it points to. *)
Definition field_matches (h : heap) (row : loc) (field : string) (v : value)
  : bool :=
  match getattr h (VRef row) field with
  | Ok (VRef target) => bool_decide (getattr h (VRef target) "pk" = Ok v)
  | Ok x => bool_decide (x = v)
  | Raise _ => false
  end.

(** A resolver whose routes need every path argument. *)
Definition reverse (view_name : value) (kwargs : gmap string value)
    (request format : value) : result value :=
  if forallb (λ kv, negb (is_None kv.2)) (map_to_list kwargs)
  then Ok (VStr "/resolved/")
  else Raise NoReverseMatch.

Definition children : value := VQuerySet [child; sibling; orphan].

Definition nested_field : Nested.t :=
  Nested.Field "pk" "pk" "parent" "parent_pk" "pk" children.

(** The same field with one name for both path arguments. *)
Definition one_kwarg_field : Nested.t :=
  Nested.Field "pk" "pk" "parent" "pk" "pk" children.

(** A field over a queryset that holds one row twice. *)
Definition crowded_field : Nested.t :=
  Nested.Field "pk" "pk" "parent" "parent_pk" "pk"
    (VQuerySet [child; sibling; duplicate]).

Definition detail : value := VStr "child-detail".
Definition collection : value := VStr "child-list".

Definition stored_queryset (self : Nested.t) : result value :=
  Ok (Nested.queryset self).

Definition router_field : Router.t :=
  Router.Field "pk" "pk" VNone (VRef serializer) (VRef serializer) "children".

(** A router field whose accessor yields [None]. *)
Definition drafts_field : Router.t :=
  Router.Field "pk" "pk" VNone (VRef serializer) (VRef serializer) "drafts".

Definition router_queryset (self : Router.t) : result value :=
  Ok (Router.queryset self).

(** A stand-in for the inherited initialiser: it needs a view name, and
    keeps it together with the [lookup_field] and the [queryset] of the
    keyword arguments. *)
Definition base_init (args : list value) (kwargs : gmap string value)
  : M (gmap string value) unit :=
  match args with
  | [] => raise AssertionError
  | view_name :: _ =>
      _ ← set_attr "view_name" view_name;
      _ ← set_attr "lookup_field"
            (default (VStr "pk") (kwargs !! "lookup_field"));
      set_attr "queryset" (default VNone (kwargs !! "queryset"))
  end.

(** A stand-in for the allocator of the framework's related fields
    ([RelatedField.__new__]): a truthy [many] sends the construction to
    [many_init], whose result is a [ManyRelatedField]; otherwise a fresh
    instance is allocated. *)
Definition allocator (args : list value) (kwargs : gmap string value)
  : result allocated :=
  if truthy world (default (VBool false) (kwargs !! "many"))
  then Ok (Diverted (VStr "ManyRelatedField"))
  else Ok (Fresh ∅).

End Sample.

(** ** Notions that the properties are stated with *)

(** The value that stands for the parent in the URL: the parent's related
    field when there is a parent, [None] when the parent is falsy. *)
Definition parent_identifier (h : heap) (self : Nested.t)
    (parent_object pv : value) : Prop :=
  (truthy h parent_object = true ∧
   getattr h parent_object (Nested.parent_lookup_related_field self) = Ok pv)
  ∨ (truthy h parent_object = false ∧ pv = VNone).

(** Forward resolution as C1 words it: for an object whose primary key is
    set, [get_url] hands the resolver a mapping of two keys, which holds
    the lookup value under [lookup_url_kwarg] and the parent's identifier
    under [parent_lookup_url_kwarg], and returns what the resolver
    returns. *)
Definition passes_two_key_mapping (h : heap)
    (reverse : value → gmap string value → value → value → result value)
    (self : Nested.t) (obj : value) : Prop :=
  ∀ pk lv p pv,
    getattr h obj "pk" = Ok pk →
    pk ≠ VNone →
    getattr h obj (Nested.lookup_field self) = Ok lv →
    getattr h obj (Nested.parent_lookup_field self) = Ok p →
    parent_identifier h self p pv →
    ∀ view_name request format tr,
    ∃ kwargs,
      Nested.get_url h reverse self obj view_name request format tr
      = (reverse view_name kwargs request format,
         tr ++ [EvReverse view_name kwargs request format])
      ∧ size kwargs = 2%nat
      ∧ kwargs !! Nested.lookup_url_kwarg self = Some lv
      ∧ kwargs !! Nested.parent_lookup_url_kwarg self = Some pv.

(** Backward after forward, on the object at [l]: whenever [l] is the one
    row of the field's queryset that the compound lookup
    [{lookup_field: its lookup value, parent_lookup_field: its parent's
    identifier}] matches, [get_url] hands some mapping to the resolver and
    [get_object] on that mapping returns [l]. *)
Definition round_trips (h : heap)
    (reverse : value → gmap string value → value → value → result value)
    (field_matches : heap → loc → string → value → bool)
    (inherited_get_queryset : Nested.t → result value)
    (self : Nested.t) (l : loc) : Prop :=
  ∀ lv p pv rows,
    getattr h (VRef l) "pk" ≠ Ok VNone →
    getattr h (VRef l) (Nested.lookup_field self) = Ok lv →
    getattr h (VRef l) (Nested.parent_lookup_field self) = Ok p →
    parent_identifier h self p pv →
    inherited_get_queryset self = Ok (VQuerySet rows) →
    matching_rows h field_matches rows
      (<[Nested.parent_lookup_field self := pv]>
         (<[Nested.lookup_field self := lv]> ∅)) = [l] →
    ∀ view_name request format tr,
    ∃ kwargs,
      Nested.get_url h reverse self (VRef l) view_name request format tr
      = (reverse view_name kwargs request format,
         tr ++ [EvReverse view_name kwargs request format])
      ∧ ∀ view_name' view_args tr',
          (Nested.get_object h field_matches inherited_get_queryset self
             view_name' view_args kwargs tr').1 = Ok (VRef l).

(** The lookup value of the router field in the order the claim gives:
    nothing when the object or its instance holds [None]; else (a) the
    object's own value, else (b) its instance's, else (c) for a PK-only
    placeholder the value of the root's instance, else nothing. *)
Definition stated_lookup_value (h : heap) (self : Router.t) (obj : value)
  : option value :=
  let field := Router.lookup_field self in
  let on_instance :=
    match getattr h obj "instance" with
    | Ok instance => getattr h instance field
    | Raise e => Raise e
    end in
  match getattr h obj field, on_instance with
  | Ok VNone, _ => None
  | _, Ok VNone => None
  | Ok v, _ => Some v
  | Raise _, Ok v => Some v
  | Raise _, Raise _ =>
      if is_pk_only h obj
      then
        match getattr h (Router.root self) "instance" with
        | Ok root_instance =>
            match getattr h root_instance field with
            | Ok v => Some v
            | Raise _ => None
            end
        | Raise _ => None
        end
      else None
  end.

Definition get_url_as_stated (h : heap)
    (reverse : value → gmap string value → value → value → result value)
    (self : Router.t) (obj view_name request format : value)
  : M (list event) value :=
  match stated_lookup_value h self obj with
  | None => mret VNone
  | Some lookup_value =>
      call_reverse reverse view_name
        (<[Router.lookup_url_kwarg self := lookup_value]> ∅) request format
  end.

Definition locates_in_stated_order (h : heap)
    (reverse : value → gmap string value → value → value → result value)
    (self : Router.t) (obj : value) : Prop :=
  ∀ view_name request format tr,
    Router.get_url h reverse self obj view_name request format tr
    = get_url_as_stated h reverse self obj view_name request format tr.

(** Neither the object nor its instance holds [None] in the lookup
    field. *)
Definition no_null (h : heap) (self : Router.t) (obj : value) : Prop :=
  getattr h obj (Router.lookup_field self) ≠ Ok VNone
  ∧ ∀ instance,
      getattr h obj "instance" = Ok instance →
      getattr h instance (Router.lookup_field self) ≠ Ok VNone.

(** Where the router field finds its lookup value: [locates h self obj o]
    with [o = Some v] when [v] is found, [o = None] when there is no URL. *)
Inductive locates (h : heap) (self : Router.t) (obj : value)
  : option value → Prop :=
  | null_on_object :
      getattr h obj (Router.lookup_field self) = Ok VNone →
      locates h self obj None
  | null_on_instance instance :
      getattr h obj "instance" = Ok instance →
      getattr h instance (Router.lookup_field self) = Ok VNone →
      locates h self obj None
  | from_root root_instance v :
      no_null h self obj →
      is_pk_only h obj = true →
      getattr h (Router.root self) "instance" = Ok root_instance →
      getattr h root_instance (Router.lookup_field self) = Ok v →
      locates h self obj (Some v)
  | from_object v :
      no_null h self obj →
      is_pk_only h obj = false →
      getattr h obj (Router.lookup_field self) = Ok v →
      locates h self obj (Some v)
  | from_instance instance v :
      no_null h self obj →
      is_pk_only h obj = false →
      hasattr h obj (Router.lookup_field self) = false →
      getattr h obj "instance" = Ok instance →
      getattr h instance (Router.lookup_field self) = Ok v →
      locates h self obj (Some v)
  | nowhere instance :
      is_pk_only h obj = false →
      hasattr h obj (Router.lookup_field self) = false →
      getattr h obj "instance" = Ok instance →
      hasattr h instance (Router.lookup_field self) = false →
      locates h self obj None.

(** Reads of the related accessor in a trace. *)
Definition is_related_read (e : event) : bool :=
  match e with
  | EvRelated _ _ => true
  | _ => false
  end.

Definition related_reads (tr : list event) : nat :=
  length (List.filter is_related_read tr).

(** The field and the trace after [n] calls of [get_queryset], whatever
    the calls return or raise. *)
Fixpoint after_calls (h : heap) (super_get_queryset : Router.t → result value)
    (n : nat) (s : Router.t * list event) : Router.t * list event :=
  match n with
  | O => s
  | S n' =>
      after_calls h super_get_queryset n'
        (Router.get_queryset h super_get_queryset s).2
  end.

(** The accessor is read on the first call only, and the handle that the
    first call leaves is the handle after any number of calls. *)
Definition resolved_once (h : heap)
    (super_get_queryset : Router.t → result value)
    (s : Router.t * list event) : Prop :=
  ∀ n,
    let first := after_calls h super_get_queryset 1 s in
    let later := after_calls h super_get_queryset (S n) s in
    (related_reads first.2 ≤ S (related_reads s.2))%nat
    ∧ related_reads later.2 = related_reads first.2
    ∧ Router.queryset later.1 = Router.queryset first.1.

(** The value of [getattr(self.parent.Meta.model, self.source).related]
    (lines 77-78), or the exception of the first attribute that is not
    there. *)
Definition related_accessor (h : heap) (self : Router.t) : result value :=
  match getattr h (Router.parent self) "Meta" with
  | Ok meta =>
      match getattr h meta "model" with
      | Ok model =>
          match getattr h model (Router.source self) with
          | Ok accessor => getattr h accessor "related"
          | Raise e => Raise e
          end
      | Raise e => Raise e
      end
  | Raise e => Raise e
  end.

(** The names of the keyword arguments that the nested field keeps for
    itself. *)
Definition own_kwargs : list string :=
  ["parent_lookup_field"; "parent_lookup_url_kwarg";
   "parent_lookup_related_field"].

(** * Properties *)

Ltac unfold_M :=
  unfold mbind, M_bind, mret, M_ret, lift, raise, emit, call_reverse,
    on_trace in *.

Lemma hasattr_Ok h v name x : getattr h v name = Ok x → hasattr h v name = true.
Proof. unfold hasattr. by intros ->. Qed.

Lemma hasattr_false h v name :
  hasattr h v name = false → ∃ e, getattr h v name = Raise e.
Proof. unfold hasattr. destruct (getattr h v name); [done | eauto]. Qed.

Lemma is_None_false v : v ≠ VNone → is_None v = false.
Proof. by destruct v. Qed.

Lemma is_None_true v : is_None v = true → v = VNone.
Proof. by destruct v. Qed.

Section NestedProperties.
Variable h : heap.
Variable reverse : value → gmap string value → value → value → result value.
Variable field_matches : heap → loc → string → value → bool.
Variable inherited_get_queryset : Nested.t → result value.

Local Abbreviation get_url := (Nested.get_url h reverse).
Local Abbreviation get_object :=
  (Nested.get_object h field_matches inherited_get_queryset).

(** The guard of [get_url] lets through every object whose [pk] is not
    there or not [None]. *)
Lemma nested_get_url_saved self obj view_name request format tr lv p :
  getattr h obj "pk" ≠ Ok VNone →
  getattr h obj (Nested.lookup_field self) = Ok lv →
  getattr h obj (Nested.parent_lookup_field self) = Ok p →
  get_url self obj view_name request format tr
  = match (if truthy h p
           then getattr h p (Nested.parent_lookup_related_field self)
           else Ok VNone) with
    | Ok pv =>
        let kwargs :=
          <[Nested.parent_lookup_url_kwarg self := pv]>
            (<[Nested.lookup_url_kwarg self := lv]> ∅) in
        (reverse view_name kwargs request format,
         tr ++ [EvReverse view_name kwargs request format])
    | Raise e => (Raise e, tr)
    end.
Proof.
  intros Hpk Hlv Hp. unfold Nested.get_url, hasattr. unfold_M.
  destruct (getattr h obj "pk") as [pk|e] eqn:Epk.
  - rewrite (is_None_false pk) by (intros ->; done).
    rewrite Hlv, Hp. by destruct (truthy h p); [destruct (getattr h p _)|].
  - rewrite Hlv, Hp. by destruct (truthy h p); [destruct (getattr h p _)|].
Qed.

(** C1, as amended.  For a field whose two path arguments have different
    names and an object whose primary key is set, [get_url] calls the
    reverse resolver once, with exactly the two-key mapping
    [{lookup_url_kwarg: lookup value, parent_lookup_url_kwarg: parent
    value}], where the parent value is the parent's related field, or
    [None] when the parent is falsy; nothing is raised on the way, and the
    outcome is the resolver's. *)
Theorem nested_get_url_kwargs self obj :
  Nested.lookup_url_kwarg self ≠ Nested.parent_lookup_url_kwarg self →
  passes_two_key_mapping h reverse self obj.
Proof.
  intros Hne pk lv p pv Hpk Hset Hlv Hp Hpv view_name request format tr.
  exists (<[Nested.parent_lookup_url_kwarg self := pv]>
            (<[Nested.lookup_url_kwarg self := lv]> ∅)).
  split; [|split; [|split]].
  - rewrite (nested_get_url_saved self obj view_name request format tr lv p);
      [|congruence|done|done].
    by destruct Hpv as [[-> ->]|[-> ->]].
  - rewrite map_size_insert_None by (by rewrite lookup_insert_ne).
    by rewrite map_size_insert_None, map_size_empty.
  - by rewrite lookup_insert_ne, lookup_insert_eq.
  - by rewrite lookup_insert_eq.
Qed.

(** C4.  An object whose [pk] attribute is there and [None] has no URL:
    [get_url] returns [None] and the resolver is not called. *)
Theorem nested_get_url_unsaved self obj view_name request format tr :
  getattr h obj "pk" = Ok VNone →
  get_url self obj view_name request format tr = (Ok VNone, tr).
Proof.
  intros Hpk. unfold Nested.get_url, hasattr. unfold_M. by rewrite Hpk.
Qed.

(** What [get_object] does once both path arguments are there. *)
Lemma get_object_lookup self view_name view_args view_kwargs tr lv pv qs :
  view_kwargs !! Nested.lookup_url_kwarg self = Some lv →
  view_kwargs !! Nested.parent_lookup_url_kwarg self = Some pv →
  inherited_get_queryset self = Ok qs →
  get_object self view_name view_args view_kwargs tr
  = queryset_get h field_matches qs
      (<[Nested.parent_lookup_field self := pv]>
         (<[Nested.lookup_field self := lv]> ∅))
      (tr ++ [EvGetQueryset]).
Proof.
  intros Hlv Hpv Hqs. unfold Nested.get_object, getitem. unfold_M.
  by rewrite Hlv, Hpv, Hqs.
Qed.

(** C5.  [get_object] hands back what the queryset lookup answers,
    failures included: no match is [ObjectDoesNotExist], two or more
    matches are [MultipleObjectsReturned], and neither is caught. *)
Theorem get_object_propagates
    self view_name view_args view_kwargs tr lv pv rows :
  view_kwargs !! Nested.lookup_url_kwarg self = Some lv →
  view_kwargs !! Nested.parent_lookup_url_kwarg self = Some pv →
  inherited_get_queryset self = Ok (VQuerySet rows) →
  let lookup :=
    <[Nested.parent_lookup_field self := pv]>
      (<[Nested.lookup_field self := lv]> ∅) in
  let tr' := tr ++ [EvGetQueryset; EvGet (VQuerySet rows) lookup] in
  get_object self view_name view_args view_kwargs tr
  = queryset_get h field_matches (VQuerySet rows) lookup
      (tr ++ [EvGetQueryset])
  ∧ (matching_rows h field_matches rows lookup = [] →
     get_object self view_name view_args view_kwargs tr
     = (Raise ObjectDoesNotExist, tr'))
  ∧ ((2 ≤ length (matching_rows h field_matches rows lookup))%nat →
     get_object self view_name view_args view_kwargs tr
     = (Raise MultipleObjectsReturned, tr')).
Proof.
  intros Hlv Hpv Hqs lookup tr'.
  rewrite (get_object_lookup _ _ _ _ _ lv pv (VQuerySet rows)) by done.
  fold lookup. subst tr'. unfold queryset_get. unfold_M.
  rewrite <- (assoc_L (++)). simpl.
  split; [done|]. split.
  - by intros ->.
  - destruct (matching_rows h field_matches rows lookup) as [|r1 [|r2 rs]];
      simpl; [lia|lia|done].
Qed.

(** C10.  A path argument that is missing from the matched mapping is a
    [KeyError], raised before [get_queryset] is called and before any
    lookup. *)
Theorem get_object_missing_kwarg self view_name view_args view_kwargs tr :
  view_kwargs !! Nested.lookup_url_kwarg self = None
  ∨ view_kwargs !! Nested.parent_lookup_url_kwarg self = None →
  get_object self view_name view_args view_kwargs tr = (Raise KeyError, tr).
Proof.
  intros Hmiss. unfold Nested.get_object, getitem. unfold_M.
  destruct (view_kwargs !! Nested.lookup_url_kwarg self) as [lv|]; [|done].
  destruct Hmiss as [? | ->]; done.
Qed.

(** C2, as amended.  For a field whose two path arguments have
    different names, backward resolution undoes forward resolution. *)
Theorem get_object_get_url self l :
  Nested.lookup_url_kwarg self ≠ Nested.parent_lookup_url_kwarg self →
  round_trips h reverse field_matches inherited_get_queryset self l.
Proof.
  intros Hne lv p pv rows Hpk Hlv Hp Hpv Hqs Hone view_name request format tr.
  eexists. split.
  - rewrite (nested_get_url_saved self _ view_name request format tr lv p)
      by done.
    destruct Hpv as [[-> ->]|[-> ->]]; reflexivity.
  - intros view_name' view_args tr'.
    rewrite (get_object_lookup _ _ _ _ _ lv pv (VQuerySet rows));
      [|by rewrite lookup_insert_ne, lookup_insert_eq
       |by rewrite lookup_insert_eq|done].
    unfold queryset_get. unfold_M. by rewrite Hone.
Qed.
End NestedProperties.

Section RouterProperties.
Variable h : heap.
Variable reverse : value → gmap string value → value → value → result value.
Variable super_get_queryset : Router.t → result value.

Local Abbreviation get_url := (Router.get_url h reverse).
Local Abbreviation get_queryset := (Router.get_queryset h super_get_queryset).
Local Abbreviation after_calls := (after_calls h super_get_queryset).

(** C3, as amended.  [get_url] returns [None] when the object, or the
    instance it wraps, holds [None] in the lookup field.  Otherwise the
    lookup value is, in this order, that of the root's instance for a
    PK-only placeholder, else the object's own, else its instance's;
    when the object has an instance and neither has the field, the
    result is [None].  A located value goes to the resolver as the
    single-key mapping [{lookup_url_kwarg: lookup_value}]. *)
Theorem router_get_url_locates self obj o view_name request format tr :
  locates h self obj o →
  get_url self obj view_name request format tr
  = match o with
    | None => (Ok VNone, tr)
    | Some lookup_value =>
        let kwargs := <[Router.lookup_url_kwarg self := lookup_value]> ∅ in
        (reverse view_name kwargs request format,
         tr ++ [EvReverse view_name kwargs request format])
    end.
Proof.
  unfold Router.get_url.
  destruct 1 as [Hobj | i Hi Hnull | ri v [Hobj Hinst] Hpk Hroot Hv
                | v [Hobj Hinst] Hpk Hv | i v [Hobj Hinst] Hpk Hno Hi Hv
                | i Hpk Hno Hi Hno'];
    unfold_M.
  - by rewrite (hasattr_Ok _ _ _ _ Hobj), Hobj.
  - rewrite (hasattr_Ok _ _ _ _ Hi), Hi, (hasattr_Ok _ _ _ _ Hnull), Hnull.
    simpl. unfold hasattr.
    by destruct (getattr h obj (Router.lookup_field self)) as [[]|].
  - rewrite Hpk, Hroot, Hv.
    unfold hasattr.
    destruct (getattr h obj (Router.lookup_field self)) as [x|] eqn:Ex.
    + rewrite (is_None_false x) by (intros ->; done).
      destruct (getattr h obj "instance") as [i|] eqn:Ei; [|done].
      specialize (Hinst i eq_refl).
      destruct (getattr h i (Router.lookup_field self)) as [y|]; [|done].
      by rewrite (is_None_false y) by (intros ->; done).
    + destruct (getattr h obj "instance") as [i|] eqn:Ei; [|done].
      specialize (Hinst i eq_refl).
      destruct (getattr h i (Router.lookup_field self)) as [y|]; [|done].
      by rewrite (is_None_false y) by (intros ->; done).
  - rewrite Hpk. unfold hasattr. rewrite Hv.
    rewrite (is_None_false v) by (intros ->; done).
    destruct (getattr h obj "instance") as [i|] eqn:Ei; [|done].
    specialize (Hinst i eq_refl).
    destruct (getattr h i (Router.lookup_field self)) as [y|]; [|done].
    by rewrite (is_None_false y) by (intros ->; done).
  - rewrite Hpk, Hno, (hasattr_Ok _ _ _ _ Hi), Hi, (hasattr_Ok _ _ _ _ Hv), Hv.
    specialize (Hinst i Hi).
    by rewrite (is_None_false v) by (intros ->; done).
  - by rewrite Hpk, Hno, (hasattr_Ok _ _ _ _ Hi), Hi, Hno'.
Qed.

(** A call on a field that holds a truthy queryset reads nothing and
    assigns nothing: it only calls the inherited [get_queryset]. *)
Lemma get_queryset_cached s :
  truthy h (Router.queryset s.1) = true →
  get_queryset s
  = (match super_get_queryset s.1 with
     | Ok _ => Ok VNone
     | Raise e => Raise e
     end, (s.1, s.2 ++ [EvGetQueryset])).
Proof.
  intros Ht. destruct s as [self tr].
  unfold Router.get_queryset, Router.get_self. unfold_M. simpl in *.
  rewrite Ht. simpl. by destruct (super_get_queryset self).
Qed.

Lemma related_reads_app tr tr' :
  related_reads (tr ++ tr') = (related_reads tr + related_reads tr')%nat.
Proof. unfold related_reads. by rewrite List.filter_app, length_app. Qed.

Lemma after_calls_cached n s :
  truthy h (Router.queryset s.1) = true →
  (after_calls n s).1 = s.1
  ∧ related_reads (after_calls n s).2 = related_reads s.2.
Proof.
  revert s. induction n as [|n IH]; intros s Ht; [done|].
  simpl. rewrite (get_queryset_cached s Ht). simpl.
  destruct (IH (s.1, s.2 ++ [EvGetQueryset]) Ht) as [-> ->]. simpl.
  split; [done|]. rewrite related_reads_app. unfold related_reads. simpl. lia.
Qed.

(** One call reads the accessor at most once. *)
Lemma get_queryset_reads s :
  (related_reads (get_queryset s).2.2 ≤ S (related_reads s.2))%nat.
Proof.
  destruct s as [self tr].
  unfold Router.get_queryset, Router.get_self, Router.set_queryset.
  unfold_M. simpl.
  destruct (truthy h (Router.queryset self)); simpl.
  - destruct (super_get_queryset self); simpl;
      rewrite related_reads_app; unfold related_reads; simpl; lia.
  - destruct (getattr h (Router.parent self) "Meta") as [meta|]; simpl;
      [|lia].
    destruct (getattr h meta "model") as [model|]; simpl; [|lia].
    destruct (getattr h model (Router.source self)) as [accessor|]; simpl;
      [|rewrite related_reads_app; unfold related_reads; simpl; lia].
    destruct (getattr h accessor "related") as [related|]; simpl;
      [|rewrite related_reads_app; unfold related_reads; simpl; lia].
    destruct (super_get_queryset _); simpl;
      rewrite !related_reads_app; unfold related_reads; simpl; lia.
Qed.


(** C9.  [get_queryset] never hands a queryset back: whenever it
    returns, it returns [None].  This is so on a field that already
    holds a queryset, and on a field that resolves it in this call;
    the value of the inherited [get_queryset] is dropped both times. *)
Theorem get_queryset_returns_None s :
  (∀ v, (get_queryset s).1 = Ok v → v = VNone)
  ∧ (truthy h (Router.queryset s.1) = true →
     ∀ q, super_get_queryset s.1 = Ok q →
     get_queryset s = (Ok VNone, (s.1, s.2 ++ [EvGetQueryset])))
  ∧ (truthy h (Router.queryset s.1) = false →
     ∀ meta model accessor related q,
     getattr h (Router.parent s.1) "Meta" = Ok meta →
     getattr h meta "model" = Ok model →
     getattr h model (Router.source s.1) = Ok accessor →
     getattr h accessor "related" = Ok related →
     super_get_queryset (Router.with_queryset s.1 related) = Ok q →
     get_queryset s
     = (Ok VNone,
        (Router.with_queryset s.1 related,
         s.2 ++ [EvRelated model (Router.source s.1); EvGetQueryset]))).
Proof.
  destruct s as [self tr]. simpl. split; [|split].
  - intros v.
    unfold Router.get_queryset, Router.get_self, Router.set_queryset.
    unfold_M. simpl.
    destruct (truthy h (Router.queryset self)); simpl.
    + destruct (super_get_queryset self); simpl; congruence.
    + destruct (getattr h (Router.parent self) "Meta") as [meta|]; simpl;
        [|done].
      destruct (getattr h meta "model") as [model|]; simpl; [|done].
      destruct (getattr h model (Router.source self)) as [accessor|]; simpl;
        [|done].
      destruct (getattr h accessor "related") as [related|]; simpl; [|done].
      destruct (super_get_queryset _); simpl; congruence.
  - intros Ht q Hq.
    by rewrite (get_queryset_cached (self, tr) Ht); simpl; rewrite Hq.
  - intros Ht meta model accessor related q Hmeta Hmodel Hacc Hrel Hq.
    unfold Router.get_queryset, Router.get_self, Router.set_queryset.
    unfold_M. simpl.
    rewrite Ht. simpl. rewrite Hmeta, Hmodel. simpl. rewrite Hacc, Hrel.
    simpl. rewrite Hq. by rewrite <- (assoc_L (++)).
Qed.
End RouterProperties.

Section Construction.
Variable base_init :
  list value → gmap string value → M (gmap string value) unit.

(** What line 72 does once [__init__] runs: whatever [many] it is given,
    the inherited initialiser receives [many = False], and every other
    keyword argument as given. *)
Lemma router_init_many_off view_name kwargs self :
  (∃ kwargs',
     Router.__init__ base_init view_name kwargs self
     = base_init [view_name] kwargs' self
     ∧ kwargs' !! "many" = Some (VBool false)
     ∧ ∀ name, name ≠ "many" → kwargs' !! name = kwargs !! name)
  ∧ ∀ many,
      Router.__init__ base_init view_name (<["many" := many]> kwargs) self
      = Router.__init__ base_init view_name kwargs self.
Proof.
  unfold Router.__init__. split.
  - eexists. split; [done|]. split; [apply lookup_insert_eq|].
    intros name Hname. by rewrite lookup_insert_ne.
  - intros many. by rewrite insert_insert_eq.
Qed.

(** The allocator that the router field inherits. *)
Variable allocator : list value → gmap string value → result allocated.


(** The class the nested field is made from. *)
Variable cls : gmap string value.

(** The inherited initialiser leaves the two parent attributes of the
    nested field alone. *)
Hypothesis base_init_frame : ∀ args kwargs self r self',
  base_init args kwargs self = (r, self') →
  self' !! "parent_lookup_field" = self !! "parent_lookup_field"
  ∧ self' !! "parent_lookup_url_kwarg" = self !! "parent_lookup_url_kwarg".

(** C8.  After [__init__], [parent_lookup_url_kwarg] is the value given
    for it; when none is given it is the field's [parent_lookup_field],
    which is the caller's override when there is one. *)
Theorem nested_init_parent_lookup_url_kwarg args kwargs self self' :
  Nested.__init__ cls base_init args kwargs self = (Ok tt, self') →
  match kwargs !! "parent_lookup_url_kwarg" with
  | Some v => self' !! "parent_lookup_url_kwarg" = Some v
  | None =>
      ∃ v, self' !! "parent_lookup_field" = Some v
           ∧ self' !! "parent_lookup_url_kwarg" = Some v
           ∧ ∀ v', kwargs !! "parent_lookup_field" = Some v' → v = v'
  end.
Proof.
  unfold Nested.__init__, read_attr, set_attr, dict_pop. unfold_M.
  intros Hinit.
  destruct (self !! "parent_lookup_field") as [d0|] eqn:Ed0;
    [|destruct (cls !! "parent_lookup_field") as [d0|] eqn:Ec0;
      [|done]].
  all: destruct (kwargs !! "parent_lookup_field") as [plf|] eqn:Eplf;
    simpl in Hinit; rewrite lookup_insert_eq in Hinit;
    rewrite ?lookup_delete_ne in Hinit by done.
  all: destruct (kwargs !! "parent_lookup_url_kwarg") as [url|] eqn:Eurl;
    simpl in Hinit; rewrite !lookup_insert_ne in Hinit by done.
  all: destruct (self !! "parent_lookup_related_field") as [d1|];
    [|destruct (cls !! "parent_lookup_related_field") as [d1|]; [|done]].
  all: simpl in Hinit; rewrite ?lookup_delete_ne in Hinit by done.
  all: destruct (kwargs !! "parent_lookup_related_field") as [prf|];
    simpl in Hinit.
  all: apply base_init_frame in Hinit as [Hplf Hurl];
    rewrite ?Hplf, ?Hurl; simplify_map_eq; eauto.
  all: eexists; split_and!; [done|done|congruence].
Qed.
End Construction.

(** * Further properties of the two fields *)

Lemma getattr_Raise h v name e : getattr h v name = Raise e → e = AttributeError.
Proof.
  unfold getattr. destruct v as [| | | |l|]; try congruence.
  destruct (h !! l) as [o|]; [|congruence].
  destruct (obj_attrs o !! name); congruence.
Qed.

Lemma hasattr_false_Raise h v name :
  hasattr h v name = false → getattr h v name = Raise AttributeError.
Proof.
  intros [e He]%hasattr_false. by rewrite He, (getattr_Raise _ _ _ _ He).
Qed.

Lemma app_singleton_ne {A} (l : list A) (x : A) : l ++ [x] ≠ l.
Proof.
  intros Heq. apply (f_equal length) in Heq. rewrite length_app in Heq.
  simpl in Heq. lia.
Qed.

Section NestedFurther.
Variable h : heap.
Variable reverse : value → gmap string value → value → value → result value.
Variable field_matches : heap → loc → string → value → bool.
Variable inherited_get_queryset : Nested.t → result value.

Local Abbreviation get_url := (Nested.get_url h reverse).
Local Abbreviation get_object :=
  (Nested.get_object h field_matches inherited_get_queryset).

(** The [pk] guard of [get_url]. *)
Lemma nested_get_url_pk_None self obj view_name request format tr :
  getattr h obj "pk" = Ok VNone →
  get_url self obj view_name request format tr = (Ok VNone, tr).
Proof.
  intros Hpk. unfold Nested.get_url, hasattr. unfold_M. by rewrite Hpk.
Qed.

(** What [get_url] does with an object that the [pk] guard lets through. *)
Lemma nested_get_url_body self obj view_name request format tr :
  getattr h obj "pk" ≠ Ok VNone →
  get_url self obj view_name request format tr
  = match getattr h obj (Nested.lookup_field self) with
    | Raise e => (Raise e, tr)
    | Ok lv =>
        match getattr h obj (Nested.parent_lookup_field self) with
        | Raise e => (Raise e, tr)
        | Ok p =>
            match (if truthy h p
                   then getattr h p (Nested.parent_lookup_related_field self)
                   else Ok VNone) with
            | Raise e => (Raise e, tr)
            | Ok pv =>
                let kwargs :=
                  <[Nested.parent_lookup_url_kwarg self := pv]>
                    (<[Nested.lookup_url_kwarg self := lv]> ∅) in
                (reverse view_name kwargs request format,
                 tr ++ [EvReverse view_name kwargs request format])
            end
        end
    end.
Proof.
  intros Hpk. unfold Nested.get_url, hasattr. unfold_M.
  destruct (getattr h obj "pk") as [pk|e] eqn:Epk.
  - rewrite (is_None_false pk) by (intros ->; done).
    destruct (getattr h obj (Nested.lookup_field self)); [|done].
    destruct (getattr h obj (Nested.parent_lookup_field self)) as [p|];
      [|done].
    by destruct (truthy h p); [destruct (getattr h p _)|].
  - destruct (getattr h obj (Nested.lookup_field self)); [|done].
    destruct (getattr h obj (Nested.parent_lookup_field self)) as [p|];
      [|done].
    by destruct (truthy h p); [destruct (getattr h p _)|].
Qed.

(** X1.  An attribute that [get_url] needs and does not find is an
    [AttributeError], raised before the resolver is called: the object's
    lookup field, its parent field, or the related field of a truthy
    parent. *)
Theorem nested_get_url_missing_attribute
    self obj view_name request format tr :
  getattr h obj "pk" ≠ Ok VNone →
  hasattr h obj (Nested.lookup_field self) = false
  ∨ hasattr h obj (Nested.parent_lookup_field self) = false
  ∨ (∃ p, getattr h obj (Nested.parent_lookup_field self) = Ok p
          ∧ truthy h p = true
          ∧ hasattr h p (Nested.parent_lookup_related_field self) = false) →
  get_url self obj view_name request format tr = (Raise AttributeError, tr).
Proof.
  intros Hpk Hmiss. rewrite nested_get_url_body by done.
  destruct Hmiss as [Hlv | [Hp | (p & Hp & Ht & Hpv)]].
  - by rewrite (hasattr_false_Raise _ _ _ Hlv).
  - rewrite (hasattr_false_Raise _ _ _ Hp).
    destruct (getattr h obj (Nested.lookup_field self)) as [lv|e] eqn:Elv;
      [done|]. by rewrite (getattr_Raise _ _ _ _ Elv).
  - rewrite Hp, Ht, (hasattr_false_Raise _ _ _ Hpv).
    destruct (getattr h obj (Nested.lookup_field self)) as [lv|e] eqn:Elv;
      [done|]. by rewrite (getattr_Raise _ _ _ _ Elv).
Qed.

(** X2.  Whatever the object, [get_url] either leaves the trace as it is,
    and then returns [None] or raises [AttributeError], or calls the
    resolver exactly once, with the view name, request and format it was
    given and a mapping whose keys are the two path-argument names, and
    returns what the resolver returns.  It never looks into a queryset. *)
Theorem nested_get_url_calls self obj view_name request format tr :
  ((get_url self obj view_name request format tr).2 = tr
   ∧ ((get_url self obj view_name request format tr).1 = Ok VNone
      ∨ (get_url self obj view_name request format tr).1
        = Raise AttributeError))
  ∨ ∃ kwargs,
      get_url self obj view_name request format tr
      = (reverse view_name kwargs request format,
         tr ++ [EvReverse view_name kwargs request format])
      ∧ dom kwargs
        = {[Nested.lookup_url_kwarg self;
            Nested.parent_lookup_url_kwarg self]}.
Proof.
  destruct (decide (getattr h obj "pk" = Ok VNone)) as [Hpk|Hpk].
  { left. rewrite nested_get_url_pk_None by done. auto. }
  rewrite nested_get_url_body by done.
  destruct (getattr h obj (Nested.lookup_field self)) as [lv|e] eqn:Elv;
    [|left; rewrite (getattr_Raise _ _ _ _ Elv); auto].
  destruct (getattr h obj (Nested.parent_lookup_field self)) as [p|e] eqn:Ep;
    [|left; rewrite (getattr_Raise _ _ _ _ Ep); auto].
  destruct (truthy h p).
  - destruct (getattr h p _) as [pv|e] eqn:Epv;
      [|left; rewrite (getattr_Raise _ _ _ _ Epv); auto].
    right. eexists. split; [done|].
    rewrite !dom_insert_L, dom_empty_L, (right_id_L ∅ (∪)).
    apply (comm_L (∪)).
  - right. eexists. split; [done|].
    rewrite !dom_insert_L, dom_empty_L, (right_id_L ∅ (∪)).
    apply (comm_L (∪)).
Qed.

(** X3.  The unsaved object is the only one that [get_url] answers by
    itself: a call that returns without having called the resolver has
    returned [None] for an object whose [pk] is [None]. *)
Theorem nested_get_url_None_only_unsaved
    self obj view_name request format tr v :
  get_url self obj view_name request format tr = (Ok v, tr) →
  getattr h obj "pk" = Ok VNone ∧ v = VNone.
Proof.
  intros Hrun.
  destruct (decide (getattr h obj "pk" = Ok VNone)) as [Hpk|Hpk].
  { rewrite nested_get_url_pk_None in Hrun by done.
    by injection Hrun as <-. }
  rewrite nested_get_url_body in Hrun by done.
  destruct (getattr h obj (Nested.lookup_field self)); [|done].
  destruct (getattr h obj (Nested.parent_lookup_field self)) as [p|]; [|done].
  destruct (if truthy h p then _ else _); [|done].
  injection Hrun as _ Htr. by apply app_singleton_ne in Htr.
Qed.

(** X4.  The guard of [get_url] is on [pk] alone, and only when it is
    there: an object without a [pk] attribute is resolved like a saved
    one, from its lookup field and its parent. *)
Theorem nested_get_url_without_pk
    self obj view_name request format tr lv p pv :
  hasattr h obj "pk" = false →
  getattr h obj (Nested.lookup_field self) = Ok lv →
  getattr h obj (Nested.parent_lookup_field self) = Ok p →
  parent_identifier h self p pv →
  let kwargs :=
    <[Nested.parent_lookup_url_kwarg self := pv]>
      (<[Nested.lookup_url_kwarg self := lv]> ∅) in
  get_url self obj view_name request format tr
  = (reverse view_name kwargs request format,
     tr ++ [EvReverse view_name kwargs request format]).
Proof.
  intros Hpk Hlv Hp Hpv kwargs.
  rewrite nested_get_url_body
    by (by rewrite (hasattr_false_Raise _ _ _ Hpk)).
  rewrite Hlv, Hp. by destruct Hpv as [[-> ->]|[-> ->]].
Qed.

(** X5.  When the compound lookup matches exactly one row of the field's
    queryset, [get_object] returns that row, after one call of
    [get_queryset] and one lookup with
    [{lookup_field: ..., parent_lookup_field: ...}]. *)
Theorem get_object_unique_match
    self view_name view_args view_kwargs tr lv pv rows l :
  view_kwargs !! Nested.lookup_url_kwarg self = Some lv →
  view_kwargs !! Nested.parent_lookup_url_kwarg self = Some pv →
  inherited_get_queryset self = Ok (VQuerySet rows) →
  let lookup :=
    <[Nested.parent_lookup_field self := pv]>
      (<[Nested.lookup_field self := lv]> ∅) in
  matching_rows h field_matches rows lookup = [l] →
  get_object self view_name view_args view_kwargs tr
  = (Ok (VRef l), tr ++ [EvGetQueryset; EvGet (VQuerySet rows) lookup]).
Proof.
  intros Hlv Hpv Hqs lookup Hone.
  rewrite (get_object_lookup h field_matches inherited_get_queryset
             _ _ _ _ _ lv pv (VQuerySet rows)) by done.
  fold lookup. unfold queryset_get. unfold_M. rewrite Hone.
  by rewrite <- (assoc_L (++)).
Qed.

(** X6.  [get_object] reads the two path arguments and nothing else of the
    match: the view name, the positional arguments and every other path
    argument are ignored. *)
Theorem get_object_only_two_kwargs
    self view_name view_name' view_args view_args' view_kwargs view_kwargs' tr :
  view_kwargs !! Nested.lookup_url_kwarg self
  = view_kwargs' !! Nested.lookup_url_kwarg self →
  view_kwargs !! Nested.parent_lookup_url_kwarg self
  = view_kwargs' !! Nested.parent_lookup_url_kwarg self →
  get_object self view_name view_args view_kwargs tr
  = get_object self view_name' view_args' view_kwargs' tr.
Proof.
  intros Hlv Hpv. unfold Nested.get_object, getitem. unfold_M.
  by rewrite Hlv, Hpv.
Qed.

(** X7.  A field without a usable queryset fails after the path arguments
    are read and before any lookup: an exception of the inherited
    [get_queryset] is passed on as it is, and a queryset that is [None]
    (no [get] to call) is an [AttributeError]. *)
Theorem get_object_without_queryset
    self view_name view_args view_kwargs tr lv pv :
  view_kwargs !! Nested.lookup_url_kwarg self = Some lv →
  view_kwargs !! Nested.parent_lookup_url_kwarg self = Some pv →
  (∀ e, inherited_get_queryset self = Raise e →
        get_object self view_name view_args view_kwargs tr
        = (Raise e, tr ++ [EvGetQueryset]))
  ∧ (inherited_get_queryset self = Ok VNone →
     get_object self view_name view_args view_kwargs tr
     = (Raise AttributeError, tr ++ [EvGetQueryset])).
Proof.
  intros Hlv Hpv. split.
  - intros e He. unfold Nested.get_object, getitem. unfold_M.
    by rewrite Hlv, Hpv, He.
  - intros Hnone.
    by rewrite (get_object_lookup h field_matches inherited_get_queryset
                  _ _ _ _ _ lv pv VNone).
Qed.
End NestedFurther.

Section RouterFurther.
Variable h : heap.
Variable reverse : value → gmap string value → value → value → result value.
Variable super_get_queryset : Router.t → result value.

Local Abbreviation get_url := (Router.get_url h reverse).
Local Abbreviation get_queryset := (Router.get_queryset h super_get_queryset).

(** The two guards of [get_url]. *)
Lemma router_get_url_null self obj view_name request format tr :
  getattr h obj (Router.lookup_field self) = Ok VNone
  ∨ (∃ instance,
       getattr h obj "instance" = Ok instance
       ∧ getattr h instance (Router.lookup_field self) = Ok VNone) →
  get_url self obj view_name request format tr = (Ok VNone, tr).
Proof.
  intros [Hobj | (i & Hi & Hnull)]; unfold Router.get_url, hasattr; unfold_M.
  - by rewrite Hobj.
  - rewrite Hi, Hnull.
    by destruct (getattr h obj (Router.lookup_field self)) as [[]|].
Qed.

Lemma no_null_dec self obj :
  no_null h self obj
  ∨ getattr h obj (Router.lookup_field self) = Ok VNone
  ∨ (∃ instance,
       getattr h obj "instance" = Ok instance
       ∧ getattr h instance (Router.lookup_field self) = Ok VNone).
Proof.
  unfold no_null.
  destruct (decide (getattr h obj (Router.lookup_field self) = Ok VNone))
    as [Hobj|Hobj]; [by right; left|].
  destruct (getattr h obj "instance") as [i|e] eqn:Hi.
  - destruct (decide (getattr h i (Router.lookup_field self) = Ok VNone))
      as [Hnull|Hnull]; [right; right; eauto|].
    left. split; [done|]. by intros i' [= <-].
  - left. split; [done|]. by intros i' [=].
Qed.

(** What [get_url] does once both guards are passed. *)
Lemma router_get_url_after_guards self obj view_name request format tr :
  no_null h self obj →
  get_url self obj view_name request format tr
  = let delegate v :=
      (reverse view_name (<[Router.lookup_url_kwarg self := v]> ∅)
         request format,
       tr ++ [EvReverse view_name
                (<[Router.lookup_url_kwarg self := v]> ∅) request format]) in
    if is_pk_only h obj
    then
      match getattr h (Router.root self) "instance" with
      | Ok root_instance =>
          match getattr h root_instance (Router.lookup_field self) with
          | Ok v => delegate v
          | Raise e => (Raise e, tr)
          end
      | Raise e => (Raise e, tr)
      end
    else
      match getattr h obj (Router.lookup_field self) with
      | Ok v => delegate v
      | Raise _ =>
          match getattr h obj "instance" with
          | Ok instance =>
              match getattr h instance (Router.lookup_field self) with
              | Ok v => delegate v
              | Raise _ => (Ok VNone, tr)
              end
          | Raise e => (Raise e, tr)
          end
      end.
Proof.
  intros [Hobj Hinst]. unfold Router.get_url, hasattr. unfold_M.
  assert (∀ x, getattr h obj (Router.lookup_field self) = Ok x →
               is_None x = false) as Hx
    by (intros x Hx; apply is_None_false; intros ->; done).
  assert (∀ i y, getattr h obj "instance" = Ok i →
                 getattr h i (Router.lookup_field self) = Ok y →
                 is_None y = false) as Hy
    by (intros i y Hi Hiy; apply is_None_false; intros ->;
        by apply (Hinst i Hi)).
  destruct (getattr h obj (Router.lookup_field self)) as [x|] eqn:Ex.
  - rewrite (Hx x eq_refl).
    destruct (getattr h obj "instance") as [i|] eqn:Ei.
    + destruct (getattr h i (Router.lookup_field self)) as [y|] eqn:Ey.
      * rewrite (Hy i y eq_refl Ey). simpl.
        destruct (is_pk_only h obj); [|done].
        destruct (getattr h (Router.root self) "instance") as [ri|]; [|done].
        by destruct (getattr h ri (Router.lookup_field self)).
      * simpl. destruct (is_pk_only h obj); [|done].
        destruct (getattr h (Router.root self) "instance") as [ri|]; [|done].
        by destruct (getattr h ri (Router.lookup_field self)).
    + simpl. destruct (is_pk_only h obj); [|done].
      destruct (getattr h (Router.root self) "instance") as [ri|]; [|done].
      by destruct (getattr h ri (Router.lookup_field self)).
  - destruct (getattr h obj "instance") as [i|] eqn:Ei.
    + destruct (getattr h i (Router.lookup_field self)) as [y|] eqn:Ey.
      * rewrite (Hy i y eq_refl Ey). simpl.
        destruct (is_pk_only h obj); [|done].
        destruct (getattr h (Router.root self) "instance") as [ri|]; [|done].
        by destruct (getattr h ri (Router.lookup_field self)).
      * simpl. destruct (is_pk_only h obj); [|done].
        destruct (getattr h (Router.root self) "instance") as [ri|]; [|done].
        by destruct (getattr h ri (Router.lookup_field self)).
    + simpl. destruct (is_pk_only h obj); [|done].
      destruct (getattr h (Router.root self) "instance") as [ri|]; [|done].
      by destruct (getattr h ri (Router.lookup_field self)).
Qed.

(** X8.  Whatever the object, [get_url] either leaves the trace as it is,
    and then returns [None] or raises [AttributeError], or calls the
    resolver exactly once, with the view name, request and format it was
    given and a mapping that has the one key [lookup_url_kwarg], and
    returns what the resolver returns.  It never touches the queryset. *)
Theorem router_get_url_calls self obj view_name request format tr :
  ((get_url self obj view_name request format tr).2 = tr
   ∧ ((get_url self obj view_name request format tr).1 = Ok VNone
      ∨ (get_url self obj view_name request format tr).1
        = Raise AttributeError))
  ∨ ∃ v,
      get_url self obj view_name request format tr
      = (reverse view_name (<[Router.lookup_url_kwarg self := v]> ∅)
           request format,
         tr ++ [EvReverse view_name
                  (<[Router.lookup_url_kwarg self := v]> ∅) request format]).
Proof.
  destruct (no_null_dec self obj) as [Hok|Hnull];
    [|left; rewrite router_get_url_null by done; auto].
  rewrite router_get_url_after_guards by done. simpl.
  destruct (is_pk_only h obj).
  - destruct (getattr h (Router.root self) "instance") as [ri|e] eqn:Eri;
      [|left; rewrite (getattr_Raise _ _ _ _ Eri); auto].
    destruct (getattr h ri (Router.lookup_field self)) as [v|e] eqn:Ev;
      [right; eauto|left; rewrite (getattr_Raise _ _ _ _ Ev); auto].
  - destruct (getattr h obj (Router.lookup_field self)) as [v|e1];
      [right; eauto|].
    destruct (getattr h obj "instance") as [i|e2] eqn:Ei;
      [|left; rewrite (getattr_Raise _ _ _ _ Ei); auto].
    destruct (getattr h i (Router.lookup_field self)) as [v|e3];
      [right; eauto|left; auto].
Qed.

(** X9.  For an object that is no PK-only placeholder, the resolver never
    receives [None]: the mapping of every resolver call holds a value
    other than [None] under [lookup_url_kwarg]. *)
Theorem router_get_url_value_not_None
    self obj view_name request format tr kwargs :
  is_pk_only h obj = false →
  (get_url self obj view_name request format tr).2
  = tr ++ [EvReverse view_name kwargs request format] →
  ∃ v, kwargs = <[Router.lookup_url_kwarg self := v]> ∅ ∧ v ≠ VNone.
Proof.
  intros Hpk Htr.
  destruct (no_null_dec self obj) as [Hok|Hnull].
  2:{ rewrite router_get_url_null in Htr by done. simpl in Htr.
      symmetry in Htr. by apply app_singleton_ne in Htr. }
  rewrite router_get_url_after_guards in Htr by done.
  rewrite Hpk in Htr. simpl in Htr. destruct Hok as [Hobj Hinst].
  destruct (getattr h obj (Router.lookup_field self)) as [v|] eqn:Ev.
  { apply app_inv_head in Htr. injection Htr as <-.
    exists v. split; [done|]. by intros ->. }
  destruct (getattr h obj "instance") as [i|] eqn:Ei;
    [|symmetry in Htr; by apply app_singleton_ne in Htr].
  destruct (getattr h i (Router.lookup_field self)) as [v|] eqn:Eiv;
    [|symmetry in Htr; by apply app_singleton_ne in Htr].
  apply app_inv_head in Htr. injection Htr as <-.
  exists v. split; [done|]. intros ->. by apply (Hinst i).
Qed.

(** X10.  A PK-only placeholder contributes nothing but its being one: two
    placeholders that pass the guards get the same URL, the one of the
    root's instance, whatever identifiers they hold. *)
Theorem router_get_url_placeholders_agree
    self obj obj' view_name request format tr :
  is_pk_only h obj = true →
  is_pk_only h obj' = true →
  no_null h self obj →
  no_null h self obj' →
  get_url self obj view_name request format tr
  = get_url self obj' view_name request format tr.
Proof.
  intros Hpk Hpk' Hok Hok'.
  rewrite !router_get_url_after_guards by done. by rewrite Hpk, Hpk'.
Qed.

(** X11.  A placeholder under a root that has no instance, or whose
    instance lacks the lookup field, is an [AttributeError], raised
    before the resolver is called. *)
Theorem router_get_url_placeholder_without_root
    self obj view_name request format tr :
  is_pk_only h obj = true →
  no_null h self obj →
  hasattr h (Router.root self) "instance" = false
  ∨ (∃ root_instance,
       getattr h (Router.root self) "instance" = Ok root_instance
       ∧ hasattr h root_instance (Router.lookup_field self) = false) →
  get_url self obj view_name request format tr = (Raise AttributeError, tr).
Proof.
  intros Hpk Hok Hroot. rewrite router_get_url_after_guards by done.
  rewrite Hpk.
  destruct Hroot as [Hno | (ri & Hri & Hno)].
  - by rewrite (hasattr_false_Raise _ _ _ Hno).
  - by rewrite Hri, (hasattr_false_Raise _ _ _ Hno).
Qed.

(** X12.  An object that is no placeholder and has neither the lookup
    field nor an [instance] attribute is an [AttributeError], not [None]:
    the last branch reads [obj.instance] without the [hasattr] test of the
    guard. *)
Theorem router_get_url_without_instance
    self obj view_name request format tr :
  is_pk_only h obj = false →
  hasattr h obj (Router.lookup_field self) = false →
  hasattr h obj "instance" = false →
  get_url self obj view_name request format tr = (Raise AttributeError, tr).
Proof.
  intros Hpk Hfield Hinst.
  apply hasattr_false_Raise in Hfield, Hinst.
  rewrite router_get_url_after_guards.
  - by rewrite Hpk, Hfield, Hinst.
  - split; [by rewrite Hfield|]. intros i. by rewrite Hinst.
Qed.

(** What [get_queryset] does on a field without a queryset. *)
Lemma get_queryset_fresh self tr :
  truthy h (Router.queryset self) = false →
  get_queryset (self, tr)
  = match getattr h (Router.parent self) "Meta" with
    | Raise e => (Raise e, (self, tr))
    | Ok meta =>
        match getattr h meta "model" with
        | Raise e => (Raise e, (self, tr))
        | Ok model =>
            let tr1 := tr ++ [EvRelated model (Router.source self)] in
            match getattr h model (Router.source self) with
            | Raise e => (Raise e, (self, tr1))
            | Ok accessor =>
                match getattr h accessor "related" with
                | Raise e => (Raise e, (self, tr1))
                | Ok related =>
                    let self' := Router.with_queryset self related in
                    (match super_get_queryset self' with
                     | Ok _ => Ok VNone
                     | Raise e => Raise e
                     end, (self', tr1 ++ [EvGetQueryset]))
                end
            end
        end
    end.
Proof.
  intros Ht.
  unfold Router.get_queryset, Router.get_self, Router.set_queryset.
  unfold_M. simpl. rewrite Ht. simpl.
  destruct (getattr h (Router.parent self) "Meta") as [meta|]; simpl; [|done].
  destruct (getattr h meta "model") as [model|]; simpl; [|done].
  destruct (getattr h model (Router.source self)) as [accessor|]; simpl;
    [|done].
  destruct (getattr h accessor "related") as [related|]; simpl; [|done].
  by destruct (super_get_queryset _).
Qed.

(** X13.  [get_queryset] changes nothing of the field but its queryset,
    and calls nothing but the related accessor of the field's own source
    and the inherited [get_queryset]: never the resolver, never a
    lookup. *)
Theorem get_queryset_keeps_configuration s :
  let s' := (get_queryset s).2 in
  (Router.lookup_field s'.1 = Router.lookup_field s.1
   ∧ Router.lookup_url_kwarg s'.1 = Router.lookup_url_kwarg s.1
   ∧ Router.parent s'.1 = Router.parent s.1
   ∧ Router.root s'.1 = Router.root s.1
   ∧ Router.source s'.1 = Router.source s.1)
  ∧ ∃ tr',
      s'.2 = s.2 ++ tr'
      ∧ Forall (λ e, e = EvGetQueryset
                     ∨ ∃ model, e = EvRelated model (Router.source s.1)) tr'.
Proof.
  destruct s as [self tr]. simpl.
  destruct (truthy h (Router.queryset self)) eqn:Ht.
  - rewrite (get_queryset_cached h super_get_queryset (self, tr) Ht). simpl.
    split; [done|]. eexists. split; [done|].
    apply Forall_cons. split; [by left|apply Forall_nil_2].
  - rewrite (get_queryset_fresh self tr Ht).
    destruct (getattr h (Router.parent self) "Meta") as [meta|]; simpl;
      [|split; [done|]; exists []; by rewrite (right_id_L [] (++))].
    destruct (getattr h meta "model") as [model|]; simpl;
      [|split; [done|]; exists []; by rewrite (right_id_L [] (++))].
    assert (Forall (λ e, e = EvGetQueryset
                         ∨ ∃ model, e = EvRelated model (Router.source self))
              [EvRelated model (Router.source self)]) as Hread
      by (apply Forall_cons; split; [right; eauto|apply Forall_nil_2]).
    destruct (getattr h model (Router.source self)) as [accessor|]; simpl;
      [|split; [done|]; eexists; split; [done|]; exact Hread].
    destruct (getattr h accessor "related") as [related|]; simpl;
      [|split; [done|]; eexists; split; [done|]; exact Hread].
    split; [done|]. eexists. split; [by rewrite <- (assoc_L (++))|].
    apply Forall_app. split; [exact Hread|].
    apply Forall_cons. split; [by left|apply Forall_nil_2].
Qed.

(** X14.  While the field has no queryset, a related accessor that cannot
    be read is an [AttributeError]: the field is left as it was, and the
    inherited [get_queryset] is not called. *)
Theorem get_queryset_missing_accessor s e :
  truthy h (Router.queryset s.1) = false →
  related_accessor h s.1 = Raise e →
  (get_queryset s).1 = Raise AttributeError
  ∧ (get_queryset s).2.1 = s.1
  ∧ ∃ tr', (get_queryset s).2.2 = s.2 ++ tr' ∧ EvGetQueryset ∉ tr'.
Proof.
  destruct s as [self tr]. simpl. intros Ht Hacc.
  rewrite (get_queryset_fresh self tr Ht). unfold related_accessor in Hacc.
  destruct (getattr h (Router.parent self) "Meta") as [meta|e1] eqn:E1; simpl.
  2:{ rewrite (getattr_Raise _ _ _ _ E1). split_and!; [done..|].
      exists []. rewrite (right_id_L [] (++)). split; [done|].
      apply not_elem_of_nil. }
  destruct (getattr h meta "model") as [model|e2] eqn:E2; simpl.
  2:{ rewrite (getattr_Raise _ _ _ _ E2). split_and!; [done..|].
      exists []. rewrite (right_id_L [] (++)). split; [done|].
      apply not_elem_of_nil. }
  destruct (getattr h model (Router.source self)) as [accessor|e3] eqn:E3;
    simpl.
  2:{ rewrite (getattr_Raise _ _ _ _ E3). split_and!; [done..|].
      eexists. split; [done|]. by intros [=]%list_elem_of_singleton. }
  destruct (getattr h accessor "related") as [related|e4] eqn:E4; [done|].
  simpl. rewrite (getattr_Raise _ _ _ _ E4). split_and!; [done..|].
  eexists. split; [done|]. by intros [=]%list_elem_of_singleton.
Qed.

(** X15.  The queryset is stored before the inherited [get_queryset] is
    called, and the inherited call sees the field with it: when that call
    raises, the exception is passed on and the resolved queryset stays on
    the field. *)
Theorem get_queryset_inherited_failure s related e :
  truthy h (Router.queryset s.1) = false →
  related_accessor h s.1 = Ok related →
  super_get_queryset (Router.with_queryset s.1 related) = Raise e →
  (get_queryset s).1 = Raise e
  ∧ (get_queryset s).2.1 = Router.with_queryset s.1 related.
Proof.
  destruct s as [self tr]. simpl. intros Ht Hacc Hsuper.
  rewrite (get_queryset_fresh self tr Ht). unfold related_accessor in Hacc.
  destruct (getattr h (Router.parent self) "Meta") as [meta|]; [|done].
  destruct (getattr h meta "model") as [model|]; [|done]. simpl.
  destruct (getattr h model (Router.source self)) as [accessor|]; [|done].
  rewrite Hacc. simpl. by rewrite Hsuper.
Qed.
End RouterFurther.

Section ConstructionFurther.
Variable base_init :
  list value → gmap string value → M (gmap string value) unit.

(** The class the nested field is made from. *)
Variable cls : gmap string value.

(** [__init__] up to the call of the inherited initialiser, when the two
    defaults can be read. *)
Lemma nested_init_run args kwargs self d1 d2 :
  read_attr cls "parent_lookup_field" self = (Ok d1, self) →
  read_attr cls "parent_lookup_related_field" self = (Ok d2, self) →
  let field := default d1 (kwargs !! "parent_lookup_field") in
  Nested.__init__ cls base_init args kwargs self
  = base_init args
      (delete "parent_lookup_related_field"
         (delete "parent_lookup_url_kwarg"
            (delete "parent_lookup_field" kwargs)))
      (<["parent_lookup_related_field" :=
           default d2 (kwargs !! "parent_lookup_related_field")]>
         (<["parent_lookup_url_kwarg" :=
              default field (kwargs !! "parent_lookup_url_kwarg")]>
            (<["parent_lookup_field" := field]> self))).
Proof.
  intros Hd1 Hd2 field. subst field.
  unfold Nested.__init__, read_attr, set_attr, dict_pop in *. unfold_M.
  assert (∀ v w, (<["parent_lookup_url_kwarg" := w]>
                    (<["parent_lookup_field" := v]> self))
                   !! "parent_lookup_related_field"
                 = self !! "parent_lookup_related_field") as Hrel
    by (intros v w; by rewrite !lookup_insert_ne).
  destruct (self !! "parent_lookup_field") as [x|] eqn:Ex;
    [|destruct (cls !! "parent_lookup_field") as [x|] eqn:Ecx; [|done]];
    injection Hd1 as ->.
  all: destruct (self !! "parent_lookup_related_field") as [y|] eqn:Ey;
    [|destruct (cls !! "parent_lookup_related_field") as [y|] eqn:Ecy;
      [|done]];
    injection Hd2 as ->.
  all: destruct (kwargs !! "parent_lookup_field") as [plf|] eqn:Eplf; simpl;
    rewrite lookup_insert_eq; rewrite ?lookup_delete_ne by done;
    rewrite ?(delete_id kwargs "parent_lookup_field") by done.
  all: destruct (kwargs !! "parent_lookup_url_kwarg") as [url|] eqn:Eurl;
    simpl; rewrite Hrel, ?Ey, ?Ecy; simpl;
    rewrite ?lookup_delete_ne by done;
    rewrite ?(delete_id _ "parent_lookup_url_kwarg")
      by (by rewrite ?lookup_delete_ne).
  all: destruct (kwargs !! "parent_lookup_related_field") as [prf|] eqn:Eprf;
    simpl; [done|].
  all: by rewrite (delete_id _ "parent_lookup_related_field")
    by (by rewrite ?lookup_delete_ne).
Qed.

(** X16.  The nested field keeps its three keyword arguments for itself:
    the inherited initialiser is called with the positional arguments as
    given and with the keyword arguments without those three, and before
    that call nothing but the three attributes of the same names has been
    written on the instance. *)
Theorem nested_init_forwards args kwargs self d1 d2 :
  cls !! "parent_lookup_field" = Some d1 →
  cls !! "parent_lookup_related_field" = Some d2 →
  ∃ kwargs' self0,
    Nested.__init__ cls base_init args kwargs self
    = base_init args kwargs' self0
    ∧ (∀ name, name ∈ own_kwargs → kwargs' !! name = None)
    ∧ (∀ name, name ∉ own_kwargs →
         kwargs' !! name = kwargs !! name ∧ self0 !! name = self !! name).
Proof.
  intros Hd1 Hd2.
  assert (∃ x, read_attr cls "parent_lookup_field" self = (Ok x, self))
    as [x Hx].
  { unfold read_attr. destruct (self !! "parent_lookup_field"); [eauto|].
    rewrite Hd1. eauto. }
  assert (∃ y, read_attr cls "parent_lookup_related_field" self = (Ok y, self))
    as [y Hy].
  { unfold read_attr.
    destruct (self !! "parent_lookup_related_field"); [eauto|].
    rewrite Hd2. eauto. }
  do 2 eexists. split; [apply (nested_init_run _ _ _ x y Hx Hy)|].
  unfold own_kwargs. split.
  - intros name Hname.
    rewrite !elem_of_cons, elem_of_nil in Hname.
    destruct Hname as [-> | [-> | [-> | []]]]; by simplify_map_eq.
  - intros name Hname.
    rewrite !not_elem_of_cons in Hname. destruct Hname as (? & ? & ? & _).
    by rewrite !lookup_delete_ne, !lookup_insert_ne.
Qed.

(** The inherited initialiser leaves the three parent attributes of the
    nested field alone. *)
Hypothesis base_init_keeps_own : ∀ args kwargs self r self' name,
  base_init args kwargs self = (r, self') →
  name ∈ own_kwargs →
  self' !! name = self !! name.

(** X17.  On a fresh instance, after [__init__]: [parent_lookup_field] is
    the keyword argument of that name, or the class attribute;
    [parent_lookup_url_kwarg] is its keyword argument, or the
    [parent_lookup_field] just stored; [parent_lookup_related_field] is
    its keyword argument, or the class attribute. *)
Theorem nested_init_parent_attributes args kwargs self self' d1 d2 :
  cls !! "parent_lookup_field" = Some d1 →
  cls !! "parent_lookup_related_field" = Some d2 →
  self !! "parent_lookup_field" = None →
  self !! "parent_lookup_related_field" = None →
  Nested.__init__ cls base_init args kwargs self = (Ok tt, self') →
  let field := default d1 (kwargs !! "parent_lookup_field") in
  self' !! "parent_lookup_field" = Some field
  ∧ self' !! "parent_lookup_url_kwarg"
    = Some (default field (kwargs !! "parent_lookup_url_kwarg"))
  ∧ self' !! "parent_lookup_related_field"
    = Some (default d2 (kwargs !! "parent_lookup_related_field")).
Proof.
  intros Hd1 Hd2 Hs1 Hs2 Hinit field.
  rewrite (nested_init_run _ _ _ d1 d2) in Hinit
    by (unfold read_attr; by rewrite ?Hs1, ?Hs2, ?Hd1, ?Hd2).
  pose proof (λ name, base_init_keeps_own _ _ _ _ _ name Hinit) as Hkeep.
  unfold own_kwargs in Hkeep.
  rewrite !Hkeep by (rewrite !elem_of_cons; auto).
  by simplify_map_eq.
Qed.
End ConstructionFurther.

(** * The properties on the sample world *)

Import Sample.

(** A saved child with its parent, and a saved child without one. *)
Lemma nested_get_url_kwargs_sample :
  (∃ kwargs,
     Nested.get_url world reverse nested_field (VRef child) detail
       VNone VNone []
     = (reverse detail kwargs VNone VNone,
        [] ++ [EvReverse detail kwargs VNone VNone])
     ∧ size kwargs = 2%nat
     ∧ kwargs !! "pk" = Some (VInt 5)
     ∧ kwargs !! "parent_pk" = Some (VInt 2))
  ∧ (∃ kwargs,
       Nested.get_url world reverse nested_field (VRef orphan) detail
         VNone VNone []
       = (reverse detail kwargs VNone VNone,
          [] ++ [EvReverse detail kwargs VNone VNone])
       ∧ size kwargs = 2%nat
       ∧ kwargs !! "pk" = Some (VInt 7)
       ∧ kwargs !! "parent_pk" = Some VNone).
Proof.
  split.
  - apply (nested_get_url_kwargs world reverse nested_field (VRef child)
             ltac:(discriminate) (VInt 5) (VInt 5) (VRef the_parent)
             (VInt 2)).
    + reflexivity.
    + discriminate.
    + reflexivity.
    + reflexivity.
    + left. split; reflexivity.
  - apply (nested_get_url_kwargs world reverse nested_field (VRef orphan)
             ltac:(discriminate) (VInt 7) (VInt 7) VNone VNone).
    + reflexivity.
    + discriminate.
    + reflexivity.
    + reflexivity.
    + right. split; reflexivity.
Defined.

(** C1 as worded fails on a field that uses one name for both path
    arguments: the dictionary display keeps one key, and under it the
    parent's value (2), not the lookup value of the object (5). *)
Lemma nested_get_url_one_kwarg :
  ¬ passes_two_key_mapping world reverse one_kwarg_field (VRef child).
Proof.
  intros Hclaim.
  destruct (Hclaim (VInt 5) (VInt 5) (VRef the_parent) (VInt 2))
    with (view_name := detail) (request := VNone) (format := VNone)
         (tr := @nil event) as (kwargs & Hcall & _ & Hown & _).
  - reflexivity.
  - discriminate.
  - reflexivity.
  - reflexivity.
  - left. split; reflexivity.
  - assert (kwargs = <["pk" := VInt 2]> (<["pk" := VInt 5]> ∅)) as ->.
    { apply (f_equal snd) in Hcall. vm_compute in Hcall.
      by inversion Hcall. }
    vm_compute in Hown. discriminate.
Qed.

(** An unsaved child. *)
Lemma nested_get_url_unsaved_sample :
  Nested.get_url world reverse nested_field (VRef unsaved) detail VNone VNone []
  = (Ok VNone, []).
Proof.
  apply (nested_get_url_unsaved world reverse nested_field (VRef unsaved)).
  reflexivity.
Defined.

(** A lookup that no row matches, and one that two rows match. *)
Lemma get_object_propagates_sample :
  Nested.get_object world field_matches stored_queryset nested_field detail []
    (<["parent_pk" := VInt 2]> (<["pk" := VInt 99]> ∅)) []
  = (Raise ObjectDoesNotExist,
     [EvGetQueryset;
      EvGet children (<["parent" := VInt 2]> (<["pk" := VInt 99]> ∅))])
  ∧ Nested.get_object world field_matches stored_queryset crowded_field detail []
      (<["parent_pk" := VInt 2]> (<["pk" := VInt 5]> ∅)) []
    = (Raise MultipleObjectsReturned,
       [EvGetQueryset;
        EvGet (VQuerySet [child; sibling; duplicate])
          (<["parent" := VInt 2]> (<["pk" := VInt 5]> ∅))]).
Proof.
  split.
  - apply (get_object_propagates world field_matches stored_queryset
             nested_field detail []
             (<["parent_pk" := VInt 2]> (<["pk" := VInt 99]> ∅)) []
             (VInt 99) (VInt 2) [child; sibling; orphan]);
      reflexivity.
  - apply (get_object_propagates world field_matches stored_queryset
             crowded_field detail []
             (<["parent_pk" := VInt 2]> (<["pk" := VInt 5]> ∅)) []
             (VInt 5) (VInt 2) [child; sibling; duplicate]);
      [reflexivity..|].
    vm_compute. lia.
Defined.

(** A matched URL without the parent's path argument. *)
Lemma get_object_missing_kwarg_sample :
  Nested.get_object world field_matches stored_queryset nested_field detail []
    (<["pk" := VInt 5]> ∅) []
  = (Raise KeyError, []).
Proof.
  apply (get_object_missing_kwarg world field_matches stored_queryset
           nested_field).
  right. reflexivity.
Defined.

(** The URL of [child] resolves back to [child]. *)
Lemma get_object_get_url_sample :
  ∃ kwargs,
    Nested.get_url world reverse nested_field (VRef child) detail VNone VNone []
    = (reverse detail kwargs VNone VNone,
       [] ++ [EvReverse detail kwargs VNone VNone])
    ∧ ∀ view_name view_args tr,
        (Nested.get_object world field_matches stored_queryset nested_field
           view_name view_args kwargs tr).1 = Ok (VRef child).
Proof.
  apply (get_object_get_url world reverse field_matches stored_queryset
           nested_field child ltac:(discriminate)
           (VInt 5) (VRef the_parent) (VInt 2) [child; sibling; orphan]).
  - discriminate.
  - reflexivity.
  - reflexivity.
  - left. split; reflexivity.
  - reflexivity.
  - reflexivity.
Defined.

(** C2 as worded fails on a field that uses one name for both path
    arguments: the dictionary display keeps the parent's value only, which
    [get_object] then takes for the object's own. *)
Lemma get_object_get_url_one_kwarg :
  ¬ round_trips world reverse field_matches stored_queryset one_kwarg_field
      child.
Proof.
  intros Hclaim.
  destruct (Hclaim (VInt 5) (VRef the_parent) (VInt 2) [child; sibling; orphan])
    with (view_name := detail) (request := VNone) (format := VNone)
         (tr := @nil event) as [kwargs [Hforward Hbackward]].
  - discriminate.
  - reflexivity.
  - reflexivity.
  - left. split; reflexivity.
  - reflexivity.
  - reflexivity.
  - assert (kwargs = <["pk" := VInt 2]> (<["pk" := VInt 5]> ∅)) as ->.
    { apply (f_equal snd) in Hforward. vm_compute in Hforward.
      by inversion Hforward. }
    specialize (Hbackward detail [] []). vm_compute in Hbackward.
    discriminate.
Qed.

(** A placeholder takes the identifier of the root's instance; a wrapper
    takes that of the instance it wraps; a wrapper of an object without
    the field has no URL. *)
Lemma router_get_url_locates_sample :
  Router.get_url world reverse router_field (VRef pk_only) collection VNone VNone []
  = (Ok (VStr "/resolved/"),
     [EvReverse collection (<["pk" := VInt 2]> ∅) VNone VNone])
  ∧ Router.get_url world reverse router_field (VRef wrapper) collection VNone VNone []
    = (Ok (VStr "/resolved/"),
       [EvReverse collection (<["pk" := VInt 5]> ∅) VNone VNone])
  ∧ Router.get_url world reverse router_field (VRef empty_wrapper) collection
      VNone VNone []
    = (Ok VNone, []).
Proof.
  split; [|split].
  - apply (router_get_url_locates world reverse router_field (VRef pk_only)
             (Some (VInt 2))).
    apply (from_root _ _ _ (VRef the_parent)); try reflexivity.
    split; [discriminate|]. intros instance. discriminate.
  - apply (router_get_url_locates world reverse router_field (VRef wrapper)
             (Some (VInt 5))).
    apply (from_instance _ _ _ (VRef child)); try reflexivity.
    split; [discriminate|]. intros instance [= <-]. discriminate.
  - apply (router_get_url_locates world reverse router_field
             (VRef empty_wrapper) None).
    apply (nowhere _ _ _ (VRef bare)); reflexivity.
Defined.

(** C3 as worded fails on a PK-only placeholder: the placeholder holds its
    own [pk] (5), which the claim's order would take first, while the code
    takes the [pk] of the root's instance (2). *)
Lemma router_get_url_placeholder_first :
  ¬ locates_in_stated_order world reverse router_field (VRef pk_only).
Proof.
  intros Hclaim. specialize (Hclaim collection VNone VNone []).
  apply (f_equal snd) in Hclaim.
  assert ((Router.get_url world reverse router_field (VRef pk_only)
             collection VNone VNone []).2
          = [EvReverse collection (<["pk" := VInt 2]> ∅) VNone VNone])
    as Hcode by reflexivity.
  assert ((get_url_as_stated world reverse router_field (VRef pk_only)
             collection VNone VNone []).2
          = [EvReverse collection (<["pk" := VInt 5]> ∅) VNone VNone])
    as Hstated by reflexivity.
  rewrite Hcode, Hstated in Hclaim.
  assert ((<["pk" := VInt 2]> (∅ : gmap string value)) !! "pk"
          = (<["pk" := VInt 5]> (∅ : gmap string value)) !! "pk") as Hpk
    by congruence.
  rewrite !lookup_insert_eq in Hpk. discriminate.
Qed.

(** An object that has neither the lookup field nor an instance is not
    answered with [None]: the last branch reads [obj.instance] unguarded. *)
Lemma router_get_url_bare_raises :
  Router.get_url world reverse router_field (VRef bare) collection VNone VNone []
  = (Raise AttributeError, []).
Proof. reflexivity. Qed.



(** A first call, which resolves the queryset, and a second call, which
    finds it: both return [None]. *)
Lemma get_queryset_returns_None_sample :
  Router.get_queryset world router_queryset (router_field, [])
  = (Ok VNone,
     (Router.with_queryset router_field (VRef relation),
      [EvRelated (VRef model) "children"; EvGetQueryset]))
  ∧ Router.get_queryset world router_queryset
      (Router.with_queryset router_field (VRef relation), [])
    = (Ok VNone,
       (Router.with_queryset router_field (VRef relation), [EvGetQueryset])).
Proof.
  split.
  - destruct (get_queryset_returns_None world router_queryset
                (router_field, [])) as (_ & _ & Hfresh).
    apply (Hfresh eq_refl (VRef meta) (VRef model) (VRef accessor)
             (VRef relation) (VRef relation)); reflexivity.
  - destruct (get_queryset_returns_None world router_queryset
                (Router.with_queryset router_field (VRef relation), []))
      as (_ & Hcached & _).
    apply (Hcached eq_refl (VRef relation)). reflexivity.
Defined.

Lemma sample_base_init_frame args kwargs self r self' :
  base_init args kwargs self = (r, self') →
  self' !! "parent_lookup_field" = self !! "parent_lookup_field"
  ∧ self' !! "parent_lookup_url_kwarg" = self !! "parent_lookup_url_kwarg".
Proof.
  unfold base_init, set_attr. unfold_M.
  destruct args as [|view_name args]; intros [= _ <-]; [done|].
  by rewrite !lookup_insert_ne.
Qed.

(** A field built with a parent field of its own and no name for the
    parent's path argument, and one built with such a name. *)
Lemma nested_init_parent_lookup_url_kwarg_sample :
  (Nested.__init__ Nested.class_attrs base_init [detail]
     (<["parent_lookup_field" := VStr "owner"]> ∅) ∅).2
    !! "parent_lookup_url_kwarg" = Some (VStr "owner")
  ∧ (Nested.__init__ Nested.class_attrs base_init [detail]
       (<["parent_lookup_url_kwarg" := VStr "owner_pk"]> ∅) ∅).2
      !! "parent_lookup_url_kwarg" = Some (VStr "owner_pk").
Proof.
  split.
  - assert (Nested.__init__ Nested.class_attrs base_init [detail]
              (<["parent_lookup_field" := VStr "owner"]> ∅) ∅
            = (Ok tt,
               (Nested.__init__ Nested.class_attrs base_init [detail]
                  (<["parent_lookup_field" := VStr "owner"]> ∅) ∅).2))
      as Hbuilt by reflexivity.
    destruct (nested_init_parent_lookup_url_kwarg base_init Nested.class_attrs
                sample_base_init_frame _ _ _ _ Hbuilt) as (v & _ & Hurl & Hgiven).
    rewrite Hurl. f_equal. apply Hgiven. reflexivity.
  - assert (Nested.__init__ Nested.class_attrs base_init [detail]
              (<["parent_lookup_url_kwarg" := VStr "owner_pk"]> ∅) ∅
            = (Ok tt,
               (Nested.__init__ Nested.class_attrs base_init [detail]
                  (<["parent_lookup_url_kwarg" := VStr "owner_pk"]> ∅) ∅).2))
      as Hbuilt by reflexivity.
    exact (nested_init_parent_lookup_url_kwarg base_init Nested.class_attrs
             sample_base_init_frame _ _ _ _ Hbuilt).
Defined.


(** * The further properties on the sample world *)

(** The parent itself has no [parent] attribute. *)
Lemma nested_get_url_missing_attribute_sample :
  Nested.get_url world reverse nested_field (VRef the_parent) detail
    VNone VNone []
  = (Raise AttributeError, []).
Proof.
  apply (nested_get_url_missing_attribute world reverse nested_field
           (VRef the_parent)).
  - discriminate.
  - right. left. reflexivity.
Defined.

(** The unsaved child is answered without the resolver. *)
Lemma nested_get_url_None_only_unsaved_sample :
  getattr world (VRef unsaved) "pk" = Ok VNone ∧ VNone = VNone.
Proof.
  apply (nested_get_url_None_only_unsaved world reverse nested_field
           (VRef unsaved) detail VNone VNone []).
  reflexivity.
Defined.

(** A wrapper has no [pk]: a field that looks at its [instance] resolves
    it. *)
Lemma nested_get_url_without_pk_sample :
  Nested.get_url world reverse
    (Nested.Field "instance" "pk" "instance" "parent_pk" "pk" children)
    (VRef wrapper) detail VNone VNone []
  = (Ok (VStr "/resolved/"),
     [EvReverse detail
        (<["parent_pk" := VInt 5]> (<["pk" := VRef child]> ∅)) VNone VNone]).
Proof.
  apply (nested_get_url_without_pk world reverse
           (Nested.Field "instance" "pk" "instance" "parent_pk" "pk" children)
           (VRef wrapper) detail VNone VNone [] (VRef child) (VRef child)
           (VInt 5)).
  - reflexivity.
  - reflexivity.
  - reflexivity.
  - left. split; reflexivity.
Defined.

(** The path arguments of [child] find [child]. *)
Lemma get_object_unique_match_sample :
  Nested.get_object world field_matches stored_queryset nested_field detail []
    (<["parent_pk" := VInt 2]> (<["pk" := VInt 5]> ∅)) []
  = (Ok (VRef child),
     [EvGetQueryset;
      EvGet children (<["parent" := VInt 2]> (<["pk" := VInt 5]> ∅))]).
Proof.
  apply (get_object_unique_match world field_matches stored_queryset
           nested_field detail []
           (<["parent_pk" := VInt 2]> (<["pk" := VInt 5]> ∅)) []
           (VInt 5) (VInt 2) [child; sibling; orphan] child);
    reflexivity.
Defined.

(** A [format] path argument, another view name and positional arguments
    change nothing. *)
Lemma get_object_only_two_kwargs_sample :
  Nested.get_object world field_matches stored_queryset nested_field detail []
    (<["parent_pk" := VInt 2]> (<["pk" := VInt 5]> ∅)) []
  = Nested.get_object world field_matches stored_queryset nested_field
      collection [VInt 1]
      (<["format" := VStr "json"]>
         (<["parent_pk" := VInt 2]> (<["pk" := VInt 5]> ∅))) [].
Proof.
  apply (get_object_only_two_kwargs world field_matches stored_queryset
           nested_field); reflexivity.
Defined.

(** A field whose queryset is [None], and one whose [get_queryset]
    fails. *)
Lemma get_object_without_queryset_sample :
  Nested.get_object world field_matches (λ _, Raise AssertionError)
    nested_field detail []
    (<["parent_pk" := VInt 2]> (<["pk" := VInt 5]> ∅)) []
  = (Raise AssertionError, [EvGetQueryset])
  ∧ Nested.get_object world field_matches stored_queryset
      (Nested.Field "pk" "pk" "parent" "parent_pk" "pk" VNone) detail []
      (<["parent_pk" := VInt 2]> (<["pk" := VInt 5]> ∅)) []
    = (Raise AttributeError, [EvGetQueryset]).
Proof.
  split.
  - destruct (get_object_without_queryset world field_matches
                (λ _, Raise AssertionError) nested_field detail []
                (<["parent_pk" := VInt 2]> (<["pk" := VInt 5]> ∅)) []
                (VInt 5) (VInt 2)) as [Hraise _]; [reflexivity..|].
    apply (Hraise AssertionError). reflexivity.
  - destruct (get_object_without_queryset world field_matches
                stored_queryset
                (Nested.Field "pk" "pk" "parent" "parent_pk" "pk" VNone)
                detail []
                (<["parent_pk" := VInt 2]> (<["pk" := VInt 5]> ∅)) []
                (VInt 5) (VInt 2)) as [_ Hnone]; [reflexivity..|].
    apply Hnone. reflexivity.
Defined.

(** The wrapper of [child] sends the identifier of [child]. *)
Lemma router_get_url_value_not_None_sample :
  ∃ v, (<["pk" := VInt 5]> ∅ : gmap string value) = <["pk" := v]> ∅
       ∧ v ≠ VNone.
Proof.
  apply (router_get_url_value_not_None world reverse router_field
           (VRef wrapper) collection VNone VNone []
           (<["pk" := VInt 5]> ∅)); reflexivity.
Defined.

(** A second placeholder, with another identifier, gets the URL of the
    first. *)
Lemma router_get_url_placeholders_agree_sample :
  let h := <[17%nat := placeholder (VInt 9)]> world in
  Router.get_url h reverse router_field (VRef pk_only) collection VNone VNone []
  = Router.get_url h reverse router_field (VRef 17%nat) collection
      VNone VNone [].
Proof.
  intros h.
  apply (router_get_url_placeholders_agree h reverse router_field
           (VRef pk_only) (VRef 17%nat)); try reflexivity.
  - split; [discriminate|]. intros instance. discriminate.
  - split; [discriminate|]. intros instance. discriminate.
Defined.

(** A placeholder under a root without an instance. *)
Lemma router_get_url_placeholder_without_root_sample :
  Router.get_url world reverse
    (Router.Field "pk" "pk" VNone (VRef serializer) (VRef bare) "children")
    (VRef pk_only) collection VNone VNone []
  = (Raise AttributeError, []).
Proof.
  apply (router_get_url_placeholder_without_root world reverse
           (Router.Field "pk" "pk" VNone (VRef serializer) (VRef bare)
              "children")
           (VRef pk_only)).
  - reflexivity.
  - split; [discriminate|]. intros instance. discriminate.
  - left. reflexivity.
Defined.

(** An object with no attribute at all. *)
Lemma router_get_url_without_instance_sample :
  Router.get_url world reverse router_field (VRef bare) collection VNone VNone []
  = (Raise AttributeError, []).
Proof.
  apply (router_get_url_without_instance world reverse router_field
           (VRef bare)); reflexivity.
Defined.

(** A source that the model has no accessor for. *)
Lemma get_queryset_missing_accessor_sample :
  let field :=
    Router.Field "pk" "pk" VNone (VRef serializer) (VRef serializer)
      "comments" in
  (Router.get_queryset world router_queryset (field, [])).1
  = Raise AttributeError
  ∧ (Router.get_queryset world router_queryset (field, [])).2.1 = field
  ∧ ∃ tr',
      (Router.get_queryset world router_queryset (field, [])).2.2 = [] ++ tr'
      ∧ EvGetQueryset ∉ tr'.
Proof.
  intros field.
  apply (get_queryset_missing_accessor world router_queryset (field, [])
           AttributeError); reflexivity.
Defined.

(** The relation of [children] stays on the field when the inherited
    [get_queryset] fails. *)
Lemma get_queryset_inherited_failure_sample :
  (Router.get_queryset world (λ _, Raise AssertionError) (router_field, [])).1
  = Raise AssertionError
  ∧ (Router.get_queryset world (λ _, Raise AssertionError)
       (router_field, [])).2.1
    = Router.with_queryset router_field (VRef relation).
Proof.
  apply (get_queryset_inherited_failure world (λ _, Raise AssertionError)
           (router_field, []) (VRef relation) AssertionError); reflexivity.
Defined.

(** A construction with the three keyword arguments and a queryset. *)
Lemma nested_init_forwards_sample :
  ∃ kwargs' self0,
    Nested.__init__ Nested.class_attrs base_init [detail]
      (<["parent_lookup_field" := VStr "owner"]>
         (<["queryset" := children]> ∅)) ∅
    = base_init [detail] kwargs' self0
    ∧ (∀ name, name ∈ own_kwargs → kwargs' !! name = None)
    ∧ (∀ name, name ∉ own_kwargs →
         kwargs' !! name
         = (<["parent_lookup_field" := VStr "owner"]>
              (<["queryset" := children]> ∅) : gmap string value) !! name
         ∧ self0 !! name = (∅ : gmap string value) !! name).
Proof.
  apply (nested_init_forwards base_init Nested.class_attrs [detail]
           (<["parent_lookup_field" := VStr "owner"]>
              (<["queryset" := children]> ∅)) ∅ (VStr "parent") (VStr "pk"));
    reflexivity.
Defined.

Lemma sample_base_init_keeps_own args kwargs self r self' name :
  base_init args kwargs self = (r, self') →
  name ∈ own_kwargs →
  self' !! name = self !! name.
Proof.
  unfold base_init, set_attr, own_kwargs. unfold_M.
  intros Hinit Hname. rewrite !elem_of_cons, elem_of_nil in Hname.
  destruct args as [|view_name args]; injection Hinit as _ <-; [done|].
  destruct Hname as [-> | [-> | [-> | []]]]; by rewrite !lookup_insert_ne.
Qed.

(** The defaults of the class: the parent is found under [parent], named
    [parent] in the URL, and identified by its [pk]. *)
Lemma nested_init_parent_attributes_sample :
  let built :=
    (Nested.__init__ Nested.class_attrs base_init [detail] ∅ ∅).2 in
  built !! "parent_lookup_field" = Some (VStr "parent")
  ∧ built !! "parent_lookup_url_kwarg" = Some (VStr "parent")
  ∧ built !! "parent_lookup_related_field" = Some (VStr "pk").
Proof.
  intros built.
  assert (Nested.__init__ Nested.class_attrs base_init [detail] ∅ ∅
          = (Ok tt, built)) as Hbuilt by reflexivity.
  assert (Nested.class_attrs !! "parent_lookup_field" = Some (VStr "parent"))
    as Hfield by reflexivity.
  assert (Nested.class_attrs !! "parent_lookup_related_field"
          = Some (VStr "pk")) as Hrelated by reflexivity.
  assert ((∅ : gmap string value) !! "parent_lookup_field" = None)
    as Hfresh by reflexivity.
  assert ((∅ : gmap string value) !! "parent_lookup_related_field" = None)
    as Hfresh' by reflexivity.
  exact (nested_init_parent_attributes base_init Nested.class_attrs
           sample_base_init_keeps_own [detail] ∅ ∅ built
           (VStr "parent") (VStr "pk") Hfield Hrelated Hfresh Hfresh' Hbuilt).
Defined.
